(** * program_codes.py: the line-sequence state machine and key expansion

    A shallow embedding of [program_codes.py], the script that reads the
    fixed-width report [program_codes.out] line by line and builds the
    dictionary [records] from [Key] to [Record].

    Conventions of the embedding.
    - A Python [str] is a [string]; the report is ASCII, and the character
      classes below ([isspace], [islower], [isupper], the digits) are the
      ASCII part of Python's.  The one non-ASCII character the script
      writes, the apostrophe put in by [fix_title], is kept as the bytes of
      its UTF-8 encoding.
    - A name that is unbound until some branch assigns it is an [option];
      reading it while unbound raises [NameError].
    - A value that is [None] or a [str] is an [option string].
    - [print] appends a [message] with its channel to the output; [exit()]
      and an uncaught exception end the run and are results of [step].
    - [records] is a [gmap], the sets are [gset]s. *)

From Stdlib Require Import Ascii NArith.
From stdpp Require Import base option list strings gmap sets fin_maps fin_sets.

(** ** Python string operations used by the script *)

Module Py.

Local Open Scope N_scope.

Definition code (c : ascii) : N := N_of_ascii c.

(** [str.isspace] on one ASCII character: TAB..CR, FS..US and the space. *)
Definition isspace (c : ascii) : bool :=
  ((9 <=? code c) && (code c <=? 13)) || ((28 <=? code c) && (code c <=? 32)).

Definition islower (c : ascii) : bool := (97 <=? code c) && (code c <=? 122).
Definition isupper (c : ascii) : bool := (65 <=? code c) && (code c <=? 90).
Definition isdigit (c : ascii) : bool := (48 <=? code c) && (code c <=? 57).

Definition upper (c : ascii) : ascii :=
  if islower c then ascii_of_N (code c - 32) else c.
Definition lower (c : ascii) : ascii :=
  if isupper c then ascii_of_N (code c + 32) else c.

(** [s.lstrip()], [s.rstrip()], [s.strip()] *)
Fixpoint lstrip (s : string) : string :=
  match s with
  | EmptyString => EmptyString
  | String c s' => if isspace c then lstrip s' else s
  end.

Fixpoint rstrip (s : string) : string :=
  match s with
  | EmptyString => EmptyString
  | String c s' =>
      match rstrip s' with
      | EmptyString => if isspace c then EmptyString else String c EmptyString
      | r => String c r
      end
  end.

Definition strip (s : string) : string := rstrip (lstrip s).

(** [s.split()]: the maximal runs of non-whitespace characters.
    [split_go s] is the (possibly empty) word that starts [s] and the
    words after it. *)
Fixpoint split_go (s : string) : string * list string :=
  match s with
  | EmptyString => (EmptyString, [])
  | String c s' =>
      let '(w, ws) := split_go s' in
      if isspace c
      then (EmptyString, match w with EmptyString => ws | _ => w :: ws end)
      else (String c w, ws)
  end.

Definition split (s : string) : list string :=
  let '(w, ws) := split_go s in
  match w with EmptyString => ws | _ => w :: ws end.

(** [s.isdecimal()]: not empty, and every character a digit. *)
Fixpoint all_digits (s : string) : bool :=
  match s with
  | EmptyString => true
  | String c s' => isdigit c && all_digits s'
  end.

Definition isdecimal (s : string) : bool :=
  match s with EmptyString => false | _ => all_digits s end.

(** Slices [s[a:]], [s[:n]] and [s[a:b]] for constants [0 <= a <= b]. *)
Fixpoint slice_from (a : nat) (s : string) : string :=
  match a, s with
  | O, _ => s
  | S a', EmptyString => EmptyString
  | S a', String _ s' => slice_from a' s'
  end.

Fixpoint slice_to (n : nat) (s : string) : string :=
  match n, s with
  | O, _ => EmptyString
  | S n', EmptyString => EmptyString
  | S n', String c s' => String c (slice_to n' s')
  end.

Definition slice (a b : nat) (s : string) : string :=
  slice_to (b - a) (slice_from a s).

(** [s.startswith(p)] *)
Fixpoint startswith (p s : string) : bool :=
  match p, s with
  | EmptyString, _ => true
  | String _ _, EmptyString => false
  | String a p', String b s' => if decide (a = b) then startswith p' s' else false
  end.

(** [s.title()]: a cased character is upper-cased when the character
    before it is not cased, lower-cased when it is. *)
Fixpoint title_go (prev_cased : bool) (s : string) : string :=
  match s with
  | EmptyString => EmptyString
  | String c s' =>
      if islower c
      then String (if prev_cased then c else upper c) (title_go true s')
      else if isupper c
      then String (if prev_cased then lower c else c) (title_go true s')
      else String c (title_go false s')
  end.

Definition title (s : string) : string := title_go false s.

(** [s.replace(old, new)] for a non-empty [old]: the occurrences of [old]
    are found from the left and do not overlap.  [skip] counts the
    characters of a matched occurrence that are still to be dropped. *)
Fixpoint replace_go (old new : string) (skip : nat) (s : string) : string :=
  match s with
  | EmptyString => EmptyString
  | String c s' =>
      match skip with
      | S k => replace_go old new k s'
      | O =>
          if startswith old s
          then new +:+ replace_go old new (String.length old - 1) s'
          else String c (replace_go old new O s')
      end
  end.

Definition replace (old new s : string) : string := replace_go old new O s.

(** [re.sub('  +', ' ', s)]: every run of two or more spaces becomes one
    space (a run of one space is left as it is, which is the same). *)
Definition space : ascii := ascii_of_N 32.

Fixpoint sub_spaces_go (in_run : bool) (s : string) : string :=
  match s with
  | EmptyString => EmptyString
  | String c s' =>
      if decide (c = space)
      then if in_run then sub_spaces_go true s'
           else String c (sub_spaces_go true s')
      else String c (sub_spaces_go false s')
  end.

Definition sub_spaces (s : string) : string := sub_spaces_go false s.

(** The text of [s] up to its first newline: what the group [( .* )] of
    the pattern below matches, as [.] is any character but the newline. *)
Fixpoint dot_star (s : string) : string :=
  match s with
  | EmptyString => EmptyString
  | String c s' =>
      if decide (c = ascii_of_N 10) then EmptyString else String c (dot_star s')
  end.

(** [re.match] of the pattern [\s*FOR AWARD\s*--] followed by the group
    [( .* )] on [line]: [None] when there is no match, otherwise
    [group(1)].  Neither ['F'] nor ['-'] is whitespace,
    so each greedy [\s*] can only stop where the whitespace ends. *)
Definition match_for_award (line : string) : option string :=
  let s1 := lstrip line in
  if startswith "FOR AWARD" s1 then
    let s2 := lstrip (slice_from 9 s1) in
    if startswith "--" s2 then Some (dot_star (slice_from 2 s2)) else None
  else None.

End Py.

(** ** The title-casing of names and institutions *)

(** [fix_title(str)] *)
Definition fix_title (str : string) : string :=
  Py.replace " And " " and "
    (Py.replace "6Th" "6th"
      (Py.replace "1St" "1st"
        (Py.replace "'S" "’s"
          (Py.replace "Mhc" "MHC" (Py.title (Py.strip str)))))).

(** [s.strip().title().replace('Cuny', 'CUNY')], written out three times
    in the script for the three institution fields. *)
Definition institution_title (s : string) : string :=
  Py.replace "Cuny" "CUNY" (Py.title (Py.strip s)).


(** ** The data model *)

(** The enumeration [line_type]. *)
Module line_type.
Inductive t : Set :=
| program
| multiple_awards
| multiple_institutions
| for_award
| certificate_etc
| financial_aid
| accreditation.

#[global] Instance eq_dec : EqDecision t.
Proof. solve_decision. Defined.
End line_type.

(** [Key = namedtuple('Key', 'program_code program_name hegis_code award
    institution')].  The classification code of a key made from an M/I line
    can be [None]. *)
Record Key : Set := mkKey {
  key_program_code : string;
  key_program_name : string;
  key_hegis_code : option string;
  key_award : string;
  key_institution : string }.

(** [Record = namedtuple('Record', 'cert_name cert_type cert_date
    tap_eligible apts_eligible vvta_eligible accreditation')] *)
Record Record_ : Set := mkRecord {
  cert_name : option string;
  cert_type : option string;
  cert_date : option string;
  tap_eligible : bool;
  apts_eligible : bool;
  vvta_eligible : bool;
  accreditation : string }.

(** [MAW_line = namedtuple('MAW_line', 'name, hegis, award, institution')] *)
Record MAW_line : Set := mkMAW_line {
  maw_name : string;
  maw_hegis : string;
  maw_award : string;
  maw_institution : string }.

(** [Certs_etc = namedtuple('Certs_etc', 'name type date')], every field
    [None] by default. *)
Record Certs_etc : Set := mkCerts_etc {
  certs_name : option string;
  certs_type : option string;
  certs_date : option string }.

Definition Certs_etc_default : Certs_etc := mkCerts_etc None None None.

(** [Financial_aid = namedtuple('Financial_aid', 'tap apts vvta')], every
    field [False] by default. *)
Record Financial_aid : Set := mkFinancial_aid {
  tap : bool;
  apts : bool;
  vvta : bool }.

Definition Financial_aid_default : Financial_aid :=
  mkFinancial_aid false false false.

#[global] Instance Key_eq_dec : EqDecision Key.
Proof. solve_decision. Defined.
#[global] Instance Record_eq_dec : EqDecision Record_.
Proof. solve_decision. Defined.
#[global] Instance MAW_line_eq_dec : EqDecision MAW_line.
Proof. solve_decision. Defined.
#[global] Instance Certs_etc_eq_dec : EqDecision Certs_etc.
Proof. solve_decision. Defined.
#[global] Instance Financial_aid_eq_dec : EqDecision Financial_aid.
Proof. solve_decision. Defined.

#[global] Instance Key_countable : Countable Key.
Proof.
  refine (inj_countable'
    (λ k, (key_program_code k, key_program_name k, key_hegis_code k,
           key_award k, key_institution k))
    (λ '(c, n, h, a, i), mkKey c n h a i) _).
  by intros [].
Defined.

#[global] Instance MAW_line_countable : Countable MAW_line.
Proof.
  refine (inj_countable'
    (λ m, (maw_name m, maw_hegis m, maw_award m, maw_institution m))
    (λ '(n, h, a, i), mkMAW_line n h a i) _).
  by intros [].
Defined.

(** The names the program branch binds together, in one record: no
    statement between their assignments can raise, so they are all bound
    or all unbound. *)
Record ProgramVars : Type := mkProgramVars {
  program_code : string;
  program_name : string;
  program_hegis : string;
  program_award : string;
  program_institution : string;
  maw_lines : gset MAW_line;
  maw_awards : gset string;
  minst_line : bool }.

#[global] Instance ProgramVars_eq_dec : EqDecision ProgramVars.
Proof. solve_decision. Defined.

(** ** Output and abnormal termination *)

Inductive channel : Set := Stdout | Stderr.

(** The three places that merge a key into [records]. *)
Inductive branch : Set := MA_branch | MI_branch | Program_branch.

(** One constructor per [print] of the loop, with the values it formats. *)
Inductive message : Type :=
| Unexpected (line_num : nat) (t : line_type.t)
| DuplicateProgramCode (line_num : nat) (code : string)
| DebugProgram (code name hegis award institution : string)
| DuplicateMA (line_num : nat) (m : MAW_line) (code : string)
| DebugMA (m : MAW_line)
| SecondMI (line_num : nat) (code : string)
| DebugMI (hegis award : option string) (institution : string)
| ForAwardNotInAwards (line_num : nat) (award : string) (awards : gset string)
| DuplicateKey (b : branch) (code : string) (k : Key)
| DifferentData (b : branch) (k : Key) (old new : Record_)
| Unrecognized (line_num : nat) (line : string).

Inductive exception : Set :=
| IndexError
| AttributeError
| NameError (name : string).

(** ** The state of the loop *)

Record State : Type := mkState {
  (* bound before the loop *)
  records : gmap Key Record_;
  program_codes : gset string;
  this_type : line_type.t;
  prev_type : option line_type.t;
  line_num : nat;
  num_dupes : nat;
  (* bound by a branch of the loop *)
  program_vars : option ProgramVars;
  cert : option Certs_etc;
  minst_hegis : option (option string);
  minst_award : option (option string);
  minst_institution : option string;
  for_award : option string;
  fin_aid : option Financial_aid;
  (* what has been printed *)
  output : list (channel * message) }.

Definition initial_state : State :=
  {| records := ∅; program_codes := ∅;
     this_type := line_type.accreditation; prev_type := None;
     line_num := 0; num_dupes := 0;
     program_vars := None; cert := None;
     minst_hegis := None; minst_award := None; minst_institution := None;
     for_award := None; fin_aid := None;
     output := [] |}.

(** Assignments to the names of the state. *)
Definition set_records (v : gmap Key Record_) (s : State) : State :=
  mkState v (program_codes s) (this_type s) (prev_type s) (line_num s)
    (num_dupes s) (program_vars s) (cert s) (minst_hegis s) (minst_award s)
    (minst_institution s) (for_award s) (fin_aid s) (output s).
Definition set_program_codes (v : gset string) (s : State) : State :=
  mkState (records s) v (this_type s) (prev_type s) (line_num s)
    (num_dupes s) (program_vars s) (cert s) (minst_hegis s) (minst_award s)
    (minst_institution s) (for_award s) (fin_aid s) (output s).
Definition set_this_type (v : line_type.t) (s : State) : State :=
  mkState (records s) (program_codes s) v (prev_type s) (line_num s)
    (num_dupes s) (program_vars s) (cert s) (minst_hegis s) (minst_award s)
    (minst_institution s) (for_award s) (fin_aid s) (output s).
Definition set_prev_type (v : option line_type.t) (s : State) : State :=
  mkState (records s) (program_codes s) (this_type s) v (line_num s)
    (num_dupes s) (program_vars s) (cert s) (minst_hegis s) (minst_award s)
    (minst_institution s) (for_award s) (fin_aid s) (output s).
Definition set_line_num (v : nat) (s : State) : State :=
  mkState (records s) (program_codes s) (this_type s) (prev_type s) v
    (num_dupes s) (program_vars s) (cert s) (minst_hegis s) (minst_award s)
    (minst_institution s) (for_award s) (fin_aid s) (output s).
Definition set_num_dupes (v : nat) (s : State) : State :=
  mkState (records s) (program_codes s) (this_type s) (prev_type s)
    (line_num s) v (program_vars s) (cert s) (minst_hegis s) (minst_award s)
    (minst_institution s) (for_award s) (fin_aid s) (output s).
Definition set_program_vars (v : option ProgramVars) (s : State) : State :=
  mkState (records s) (program_codes s) (this_type s) (prev_type s)
    (line_num s) (num_dupes s) v (cert s) (minst_hegis s) (minst_award s)
    (minst_institution s) (for_award s) (fin_aid s) (output s).
Definition set_cert (v : option Certs_etc) (s : State) : State :=
  mkState (records s) (program_codes s) (this_type s) (prev_type s)
    (line_num s) (num_dupes s) (program_vars s) v (minst_hegis s)
    (minst_award s) (minst_institution s) (for_award s) (fin_aid s) (output s).
Definition set_minst_hegis (v : option (option string)) (s : State) : State :=
  mkState (records s) (program_codes s) (this_type s) (prev_type s)
    (line_num s) (num_dupes s) (program_vars s) (cert s) v (minst_award s)
    (minst_institution s) (for_award s) (fin_aid s) (output s).
Definition set_minst_award (v : option (option string)) (s : State) : State :=
  mkState (records s) (program_codes s) (this_type s) (prev_type s)
    (line_num s) (num_dupes s) (program_vars s) (cert s) (minst_hegis s) v
    (minst_institution s) (for_award s) (fin_aid s) (output s).
Definition set_minst_institution (v : option string) (s : State) : State :=
  mkState (records s) (program_codes s) (this_type s) (prev_type s)
    (line_num s) (num_dupes s) (program_vars s) (cert s) (minst_hegis s)
    (minst_award s) v (for_award s) (fin_aid s) (output s).
Definition set_for_award (v : option string) (s : State) : State :=
  mkState (records s) (program_codes s) (this_type s) (prev_type s)
    (line_num s) (num_dupes s) (program_vars s) (cert s) (minst_hegis s)
    (minst_award s) (minst_institution s) v (fin_aid s) (output s).
Definition set_fin_aid (v : option Financial_aid) (s : State) : State :=
  mkState (records s) (program_codes s) (this_type s) (prev_type s)
    (line_num s) (num_dupes s) (program_vars s) (cert s) (minst_hegis s)
    (minst_award s) (minst_institution s) (for_award s) v (output s).
Definition set_output (v : list (channel * message)) (s : State) : State :=
  mkState (records s) (program_codes s) (this_type s) (prev_type s)
    (line_num s) (num_dupes s) (program_vars s) (cert s) (minst_hegis s)
    (minst_award s) (minst_institution s) (for_award s) (fin_aid s) v.

(** How a statement ends: normally with a value, by [exit()], or by an
    exception nothing catches.  The state it ends in is kept in all three
    cases, so that what was printed before the end can be read off. *)
Inductive outcome (A : Type) : Type :=
| Ok (a : A) (s : State)
| Exit (s : State)
| Raise (e : exception) (s : State).
Arguments Ok {A} a s.
Arguments Exit {A} s.
Arguments Raise {A} e s.

(** Statements: state passing with early termination. *)
Definition M (A : Type) : Type := State → outcome A.

#[global] Instance M_ret : MRet M := λ A a s, Ok a s.
#[global] Instance M_bind : MBind M := λ A B f m s,
  match m s with
  | Ok a s' => f a s'
  | Exit s' => Exit s'
  | Raise e s' => Raise e s'
  end.

Definition gets {A : Type} (f : State → A) : M A := λ s, Ok (f s) s.
Definition modify (f : State → State) : M unit := λ s, Ok () (f s).
Definition raise {A : Type} (e : exception) : M A := λ s, Raise e s.
Definition exit {A : Type} : M A := λ s, Exit s.

(** Reading the name [name]: [NameError] while it is unbound. *)
Definition read {A : Type} (name : string) (f : State → option A) : M A :=
  λ s, match f s with Some a => Ok a s | None => Raise (NameError name) s end.

Definition print (ch : channel) (m : message) : M unit :=
  modify (λ s, set_output (output s ++ [(ch, m)]) s).

(** [if b: body] without an [else]. *)
Definition when (b : bool) (body : M unit) : M unit :=
  if b then body else mret ().

(** [for x in xs: body x] *)
Fixpoint for_each {A : Type} (xs : list A) (body : A → M unit) : M unit :=
  match xs with
  | [] => mret ()
  | x :: xs' => body x ;; for_each xs' body
  end.

(** ** The body of the loop *)

(** [if o:] for a value that is [None] or a [str]. *)
Definition truthy (o : option string) : bool :=
  match o with
  | Some s => bool_decide (s ≠ "")
  | None => false
  end.

(** [awards], the name formatted into the message of the for_award branch,
    is assigned nowhere in the script. *)
Definition awards (s : State) : option (gset string) := None.

Section loop.

(** [args.debug] *)
Variable debug : bool.

(** The [if key in records.keys(): ... else: records[key] = data_record]
    block, written out once per branch in the script; the branches differ
    in the wording of the two messages and in the channel of the second
    (the program branch prints it on standard output). *)
Definition merge (b : branch) (code : string) (key : Key)
    (data_record : Record_) : M unit :=
  recs ← gets records;
  match recs !! key with
  | Some old =>
      when debug (print Stdout (DuplicateKey b code key));;
      when (bool_decide (old ≠ data_record))
        (print (match b with Program_branch => Stdout | _ => Stderr end)
               (DifferentData b key old data_record))
  | None => modify (set_records (<[key := data_record]> recs))
  end.

(** [token.isdecimal()]: line_type.program *)
Definition program_line (token line : string) : M unit :=
  modify (set_this_type line_type.program);;
  prev ← gets prev_type;
  n ← gets line_num;
  when (bool_decide (prev ≠ Some line_type.accreditation))
    (print Stdout (Unexpected n line_type.program));;
  let program_code := token in
  let program_name := fix_title (Py.slice 10 52 line) in
  let program_hegis := Py.slice 52 59 line in
  let program_award := Py.strip (Py.slice 63 76 line) in
  let program_institution := institution_title (Py.slice_from 76 line) in
  codes ← gets program_codes;
  when (bool_decide (program_code ∈ codes))
    (when debug (print Stdout (DuplicateProgramCode n program_code));;
     dupes ← gets num_dupes;
     modify (set_num_dupes (dupes + 1)));;
  modify (set_program_codes ({[token]} ∪ codes));;
  modify (set_program_vars (Some
    {| program_code := program_code; program_name := program_name;
       program_hegis := program_hegis; program_award := program_award;
       program_institution := program_institution;
       maw_lines := ∅; maw_awards := ∅; minst_line := false |}));;
  modify (set_cert (Some Certs_etc_default));;
  when debug
    (print Stdout (DebugProgram program_code program_name program_hegis
                     program_award program_institution)).

(** [token == 'M/A']: line_type.multiple_awards *)
Definition multiple_awards_line (line : string) : M unit :=
  modify (set_this_type line_type.multiple_awards);;
  prev ← gets prev_type;
  n ← gets line_num;
  when (bool_decide (prev ≠ Some line_type.program) &&
        bool_decide (prev ≠ Some line_type.multiple_institutions))
    (print Stderr (Unexpected n line_type.multiple_awards));;
  let maw_line :=
    {| maw_name := Py.strip (fix_title (Py.slice 10 52 line));
       maw_hegis := Py.strip (Py.slice 52 59 line);
       maw_award := Py.strip (Py.slice 63 76 line);
       maw_institution := institution_title (Py.slice_from 76 line) |} in
  pv ← read "maw_lines" program_vars;
  when (bool_decide (maw_line ∈ maw_lines pv))
    (print Stderr (DuplicateMA n maw_line (program_code pv)));;
  modify (set_program_vars (Some
    {| program_code := program_code pv; program_name := program_name pv;
       program_hegis := program_hegis pv; program_award := program_award pv;
       program_institution := program_institution pv;
       maw_lines := {[maw_line]} ∪ maw_lines pv;
       maw_awards := {[maw_award maw_line]} ∪ maw_awards pv;
       minst_line := minst_line pv |}));;
  when debug (print Stdout (DebugMA maw_line)).

(** [token == 'M/I']: line_type.multiple_institutions *)
Definition multiple_institutions_line (line : string) : M unit :=
  modify (set_this_type line_type.multiple_institutions);;
  prev ← gets prev_type;
  n ← gets line_num;
  when (bool_decide (prev ≠ Some line_type.program) &&
        bool_decide (prev ≠ Some line_type.multiple_awards))
    (print Stderr (Unexpected n line_type.multiple_institutions));;
  let hegis := Py.strip (Py.slice 52 59 line) in
  let hegis := if decide (hegis = "") then None else Some hegis in
  modify (set_minst_hegis (Some hegis));;
  let award := Py.strip (Py.slice 63 76 line) in
  let award := if decide (award = "NOT-GRANTING") then None else Some award in
  modify (set_minst_award (Some award));;
  when (truthy award)
    (pv ← read "minst_line" program_vars;
     when (minst_line pv)
       (print Stdout (SecondMI n (program_code pv));; exit);;
     let institution := institution_title (Py.slice_from 76 line) in
     modify (set_minst_institution (Some institution));;
     modify (set_program_vars (Some
       {| program_code := program_code pv; program_name := program_name pv;
          program_hegis := program_hegis pv;
          program_award := program_award pv;
          program_institution := program_institution pv;
          maw_lines := maw_lines pv; maw_awards := maw_awards pv;
          minst_line := true |}));;
     when debug (print Stdout (DebugMI hegis award institution))).

(** [token == 'FOR']: line_type.for_award *)
Definition for_award_line (line : string) : M unit :=
  modify (set_this_type line_type.for_award);;
  prev ← gets prev_type;
  n ← gets line_num;
  when (bool_decide (prev ≠ Some line_type.program) &&
        bool_decide (prev ≠ Some line_type.multiple_awards) &&
        bool_decide (prev ≠ Some line_type.multiple_institutions) &&
        bool_decide (prev ≠ Some line_type.accreditation))
    (print Stderr (Unexpected n line_type.for_award));;
  match Py.match_for_award line with
  | None => raise AttributeError
  | Some group1 =>
      let award := Py.strip group1 in
      modify (set_for_award (Some award));;
      pv ← read "program_award" program_vars;
      when (bool_decide (award ≠ program_award pv) &&
            bool_decide (award ∉ maw_awards pv))
        (aw ← read "awards" awards;
         print Stderr (ForAwardNotInAwards n award aw);;
         exit)
  end.

(** [token.startswith('CERT')]: line_type.certificate_etc *)
Definition certificate_etc_line (line : string) : M unit :=
  modify (set_this_type line_type.certificate_etc);;
  prev ← gets prev_type;
  n ← gets line_num;
  when (bool_decide (prev ≠ Some line_type.for_award))
    (print Stderr (Unexpected n line_type.certificate_etc));;
  let cert_info := Py.strip (Py.slice_from 47 line) in
  if Py.startswith "NONE" cert_info
  then modify (set_cert (Some Certs_etc_default))
  else modify (set_cert (Some
    {| certs_name := Some (Py.strip (Py.slice 0 18 cert_info));
       certs_type := Some (Py.strip (Py.slice 18 28 cert_info));
       certs_date := Some (Py.strip (Py.slice_from 28 cert_info)) |})).

(** [token == 'PROGRAM' and tokens[1] == 'FINANCIAL']:
    line_type.financial_aid *)
Definition financial_aid_line (line : string) : M unit :=
  modify (set_this_type line_type.financial_aid);;
  prev ← gets prev_type;
  n ← gets line_num;
  when (bool_decide (prev ≠ Some line_type.certificate_etc) &&
        bool_decide (prev ≠ Some line_type.for_award))
    (print Stderr (Unexpected n line_type.financial_aid));;
  let if_tap := bool_decide (Py.slice 54 57 line = "YES") in
  let if_apts := bool_decide (Py.slice 66 69 line = "YES") in
  let if_vvta := bool_decide (Py.slice 77 80 line = "YES") in
  modify (set_fin_aid (Some (mkFinancial_aid if_tap if_apts if_vvta))).

(** The second half of the accreditation branch, from the comment
    "Generate all distinct keys for this award for this program code" on:
    three blocks, one after the other, each under its own condition.  The
    set [keys] the script creates here is never used and is left out. *)
Definition generate_keys (pv : ProgramVars) (award : string)
    (data_record : Record_) : M unit :=
  (* Multiple award sets, if any *)
  when (bool_decide (award ∈ maw_awards pv))
    (for_each (elements (maw_lines pv)) (λ maw_line,
       when (bool_decide (maw_award maw_line = award))
         (merge MA_branch (program_code pv)
            (mkKey (program_code pv) (maw_name maw_line)
               (Some (maw_hegis maw_line)) (maw_award maw_line)
               (maw_institution maw_line))
            data_record)));;
  (* Multiple institutions, if any; [minst_award == for_award] holds only
     of a [minst_award] that is a [str] *)
  when (minst_line pv)
    (m_award ← read "minst_award" minst_award;
     match m_award with
     | Some a =>
         when (bool_decide (a = award))
           (m_hegis ← read "minst_hegis" minst_hegis;
            m_institution ← read "minst_institution" minst_institution;
            merge MI_branch (program_code pv)
              (mkKey (program_code pv) (Py.sub_spaces (program_name pv))
                 m_hegis a m_institution)
              data_record)
     | None => mret ()
     end);;
  (* Programs without multiple institutions or awards *)
  when (bool_decide (program_award pv = award))
    (merge Program_branch (program_code pv)
       (mkKey (program_code pv) (Py.sub_spaces (program_name pv))
          (Some (program_hegis pv)) (program_award pv)
          (program_institution pv))
       data_record).

(** [token == 'PROGRAM' and tokens[1] == 'PROFESSIONAL']:
    line_type.accreditation.  The names are read in the order in which the
    script evaluates them: [cert] and [fin_aid] for the record, then
    [for_award] and [maw_awards] for the first condition. *)
Definition accreditation_line (line : string) : M unit :=
  modify (set_this_type line_type.accreditation);;
  prev ← gets prev_type;
  n ← gets line_num;
  when (bool_decide (prev ≠ Some line_type.financial_aid))
    (print Stderr (Unexpected n line_type.accreditation));;
  let accreditation := Py.strip (Py.slice_from 45 line) in
  c ← read "cert" cert;
  fa ← read "fin_aid" fin_aid;
  let data_record :=
    mkRecord (certs_name c) (certs_type c) (certs_date c)
             (tap fa) (apts fa) (vvta fa) accreditation in
  award ← read "for_award" for_award;
  pv ← read "maw_awards" program_vars;
  generate_keys pv award data_record.

(** The final [else]. *)
Definition unrecognized_line (line : string) : M unit :=
  n ← gets line_num;
  print Stderr (Unrecognized n line).

(** One iteration of [for line in iter(fp)].  [tokens[0]] and
    [tokens[1]] raise [IndexError] when the token is not there; the two
    tests of [tokens[1]] are reached only when the first token is
    [PROGRAM]. *)
Definition step (line : string) : M unit :=
  n ← gets line_num;
  modify (set_line_num (n + 1));;
  t ← gets this_type;
  modify (set_prev_type (Some t));;
  match Py.split line with
  | [] => raise IndexError
  | token :: rest =>
      if Py.isdecimal token then program_line token line
      else if decide (token = "M/A") then multiple_awards_line line
      else if decide (token = "M/I") then multiple_institutions_line line
      else if decide (token = "FOR") then for_award_line line
      else if Py.startswith "CERT" token then certificate_etc_line line
      else if decide (token = "PROGRAM") then
        match rest with
        | [] => raise IndexError
        | token1 :: _ =>
            if decide (token1 = "FINANCIAL") then financial_aid_line line
            else if decide (token1 = "PROFESSIONAL")
                 then accreditation_line line
            else unrecognized_line line
        end
      else unrecognized_line line
  end.

(** The whole loop over the lines of the file. *)
Fixpoint loop (lines : list string) : M unit :=
  match lines with
  | [] => mret ()
  | line :: lines' => step line ;; loop lines'
  end.

(** The run of the script on the lines of [program_codes.out]. *)
Definition run (lines : list string) : outcome unit :=
  loop lines initial_state.

End loop.

(** The code after the loop writes the spreadsheet from [records]; it is
    reached only when the loop ends normally.  These are the rows it is
    given (the script sorts them by key). *)
Definition handed_to_emitter (o : outcome unit) : list (Key * Record_) :=
  match o with
  | Ok _ s => map_to_list (records s)
  | Exit _ | Raise _ _ => []
  end.

Definition reaches_emitter (o : outcome unit) : bool :=
  match o with
  | Ok _ _ => true
  | Exit _ | Raise _ _ => false
  end.

(** What the run had printed when it ended. *)
Definition printed {A : Type} (o : outcome A) : list (channel * message) :=
  match o with
  | Ok _ s | Exit s | Raise _ s => output s
  end.

(** ** Reading off results *)

Definition raised {A : Type} (o : outcome A) : option exception :=
  match o with
  | Raise e _ => Some e
  | Ok _ _ | Exit _ => None
  end.

Definition final_state {A : Type} (o : outcome A) : State :=
  match o with
  | Ok _ s | Exit s | Raise _ s => s
  end.

(** The first two statements of an iteration: count the line and remember
    the type of the line before. *)
Definition enter (s : State) : State :=
  set_prev_type (Some (this_type s)) (set_line_num (line_num s + 1) s).

(** ** Report lines for the examples *)

Module Report.

Definition nl : string := String (ascii_of_nat 10) "".

(** [s.ljust(n)] *)
Fixpoint ljust (n : nat) (s : string) : string :=
  match n, s with
  | O, _ => s
  | S n', EmptyString => String Py.space (ljust n' EmptyString)
  | S n', String c s' => String c (ljust n' s')
  end.

(** Code in columns 0-9, name in 10-51, classification code in 52-58,
    award in 63-75, institution from 76. *)
Definition program (code name hegis award institution : string) : string :=
  ljust 10 code +:+ ljust 42 name +:+ ljust 11 hegis +:+ ljust 13 award
    +:+ institution +:+ nl.

Definition multiple_awards (name hegis award institution : string) : string :=
  program "M/A" name hegis award institution.

Definition multiple_institutions (hegis award institution : string) : string :=
  program "M/I" "" hegis award institution.

Definition for_award (award : string) : string :=
  "     FOR AWARD --" +:+ award +:+ nl.

(** Certificate text from column 47. *)
Definition certificate (info : string) : string :=
  ljust 47 "CERT/LIC TITLES/TYPES" +:+ info +:+ nl.

(** The three answers in columns 54-56, 66-68 and 77-79. *)
Definition financial_aid (t a v : string) : string :=
  ljust 54 "PROGRAM FINANCIAL AID ELIGIBILITY" +:+ ljust 12 t +:+ ljust 11 a
    +:+ v +:+ nl.

(** Accreditation text from column 45. *)
Definition accreditation (text : string) : string :=
  ljust 45 "PROGRAM PROFESSIONAL ACCREDITATION" +:+ text +:+ nl.

End Report.

(** ** Inputs of the examples *)

Definition art_history : string :=
  Report.program "02345" "ART HISTORY" "1003.00" "BA" "QUEENS COLLEGE".

Definition music : string :=
  Report.program "02346" "MUSIC" "1005.00" "MA" "QUEENS COLLEGE".

Definition music_key : Key :=
  mkKey "02346" "Music" (Some "1005.00") "MA" "Queens College".

(** A for_award line naming an award the program does not have. *)
Definition unknown_award_input : list string :=
  [ art_history; Report.for_award "MA" ].

(** Two programs; the block of the second has no financial_aid line. *)
Definition missing_financial_aid_input : list string :=
  [ art_history;
    Report.for_award "BA";
    Report.certificate "NONE";
    Report.financial_aid "YES" "YES" "YES";
    Report.accreditation "";
    music;
    Report.for_award "MA";
    Report.accreditation "" ].

(** A file that starts with an M/A line. *)
Definition leading_MA_input : list string :=
  [ Report.multiple_awards "ART HISTORY" "1003.00" "MA" "QUEENS COLLEGE" ].

(** An M/A line right after a financial_aid line. *)
Definition late_MA_input : list string :=
  [ art_history;
    Report.for_award "BA";
    Report.certificate "NONE";
    Report.financial_aid "YES" "NO" "NO";
    Report.multiple_awards "ART HISTORY" "1003.00" "MA" "QUEENS COLLEGE" ].

(** Lines without the tokens the classifier looks at. *)
Definition empty_line : string := Report.nl.
Definition blank_line : string := "    " +:+ Report.nl.
Definition lone_PROGRAM_line : string := "PROGRAM" +:+ Report.nl.

Definition art_history_key : Key :=
  mkKey "02345" "Art History" (Some "1003.00") "BA" "Queens College".

(** The BA block of a program, and the same block again with other
    financial-aid answers. *)
Definition first_block : list string :=
  [ art_history;
    Report.for_award "BA";
    Report.certificate "NONE";
    Report.financial_aid "YES" "NO" "NO";
    Report.accreditation "" ].


(** A program with an M/I line that carries an award, a second such line,
    and the lines after it. *)
Definition one_award_MI_input : list string :=
  [ art_history;
    Report.multiple_institutions "1003.00" "MA" "HUNTER COLLEGE" ].

Definition second_award_MI_line : string :=
  Report.multiple_institutions "1003.00" "PHD" "CUNY GRADUATE CENTER".

Definition after_MI_lines : list string :=
  [ Report.for_award "BA";
    Report.certificate "NONE";
    Report.financial_aid "YES" "NO" "NO";
    Report.accreditation "" ].


(** ** The keys of one accreditation line, as sets *)

(** [records[key] = data_record] unless the key is there already. *)
Definition insert_new (key : Key) (data_record : Record_)
    (recs : gmap Key Record_) : gmap Key Record_ :=
  match recs !! key with
  | Some _ => recs
  | None => <[key := data_record]> recs
  end.

(** The key made from one entry of [maw_lines]. *)
Definition MA_key (code : string) (m : MAW_line) : Key :=
  mkKey code (maw_name m) (Some (maw_hegis m)) (maw_award m)
    (maw_institution m).

(** The entries of [maw_lines] for one award, and their keys. *)
Definition MA_entries (pv : ProgramVars) (award : string) : gset MAW_line :=
  filter (λ m, maw_award m = award) (maw_lines pv).

Definition MA_keys (pv : ProgramVars) (award : string) : gset Key :=
  set_map (MA_key (program_code pv)) (MA_entries pv award).

(** The key of the multiple-institutions branch, when the branch makes
    one: from [minst_hegis], [minst_award] and [minst_institution] as they
    are when the accreditation line is read. *)
Definition MI_keys (s : State) (pv : ProgramVars) (award : string) : gset Key :=
  match minst_line pv, minst_award s, minst_hegis s, minst_institution s with
  | true, Some (Some a), Some hegis, Some institution =>
      if decide (a = award)
      then {[ mkKey (program_code pv) (Py.sub_spaces (program_name pv))
                hegis a institution ]}
      else ∅
  | _, _, _, _ => ∅
  end.

(** The key of the base program, when its award is the one asked for. *)
Definition program_keys (pv : ProgramVars) (award : string) : gset Key :=
  if decide (program_award pv = award)
  then {[ mkKey (program_code pv) (Py.sub_spaces (program_name pv))
            (Some (program_hegis pv)) (program_award pv)
            (program_institution pv) ]}
  else ∅.

(** The names other than [records] and what was printed. *)
Definition names (s : State) :=
  (program_codes s, this_type s, prev_type s, line_num s, num_dupes s,
   program_vars s, cert s, minst_hegis s, minst_award s, minst_institution s,
   for_award s, fin_aid s).

(** What holds of the names in every state the loop reaches: the awards of
    [maw_lines] are the elements of [maw_awards], and once an M/I line with
    an award has been read the three M/I names are bound. *)
Definition consistent (s : State) : Prop :=
  ∀ pv, program_vars s = Some pv →
    maw_awards pv = set_map maw_award (maw_lines pv) ∧
    (minst_line pv = true →
       is_Some (minst_hegis s) ∧ is_Some (minst_award s) ∧
       is_Some (minst_institution s)).

(** [recs'] is [recs] with the keys [keys] merged in: what was there is
    kept, the domain grows by [keys], and every key that is new has the
    record [data_record]. *)
Definition grows_by (data_record : Record_) (keys : gset Key)
    (recs recs' : gmap Key Record_) : Prop :=
  (∀ k r, recs !! k = Some r → recs' !! k = Some r) ∧
  dom recs' = dom recs ∪ keys ∧
  (∀ k, recs !! k = None → k ∈ dom recs' → recs' !! k = Some data_record).

(** The step from [s] to [s'] merged [keys] and assigned no name. *)
Definition expands (data_record : Record_) (keys : gset Key)
    (s s' : State) : Prop :=
  grows_by data_record keys (records s) (records s') ∧ names s' = names s.

(** The statement [m] ends normally from [s], having merged [keys]. *)
Definition runs (data_record : Record_) (keys : gset Key) (m : M unit)
    (s : State) : Prop :=
  ∃ s', m s = Ok () s' ∧ expands data_record keys s s'.

(** A program whose base award is MA, with two M/A entries for MA and one
    for MS, up to the financial_aid line of the MA block; and the
    accreditation line that ends the block. *)
Definition studio_art : MAW_line :=
  mkMAW_line "Studio Art" "1002.00" "MA" "Queens College".
Definition art_education : MAW_line :=
  mkMAW_line "Art Education" "0831.00" "MA" "Queens College".
Definition art_therapy : MAW_line :=
  mkMAW_line "Art Therapy" "1099.00" "MS" "Queens College".

Definition three_MA_input : list string :=
  [ Report.program "02347" "ART" "1002.00" "MA" "QUEENS COLLEGE";
    Report.multiple_awards "STUDIO ART" "1002.00" "MA" "QUEENS COLLEGE";
    Report.multiple_awards "ART EDUCATION" "0831.00" "MA" "QUEENS COLLEGE";
    Report.multiple_awards "ART THERAPY" "1099.00" "MS" "QUEENS COLLEGE";
    Report.for_award "MA";
    Report.certificate "NONE";
    Report.financial_aid "YES" "NO" "NO" ].

Definition three_MA_vars : ProgramVars :=
  {| program_code := "02347"; program_name := "Art";
     program_hegis := "1002.00"; program_award := "MA";
     program_institution := "Queens College";
     maw_lines := {[ studio_art; art_education; art_therapy ]};
     maw_awards := {[ "MA"; "MS" ]};
     minst_line := false |}.

Definition NCATE_line : string := Report.accreditation "NCATE".

(** A program with an M/I line that carries the award MA, an M/A line for
    MA, and then an M/I line without an award (NOT-GRANTING) that has a
    classification code of its own; and the MA block after them. *)
Definition MI_then_sentinel_input : list string :=
  [ Report.program "02348" "URBAN STUDIES" "2214.00" "BA" "QUEENS COLLEGE";
    Report.multiple_institutions "2214.00" "MA" "HUNTER COLLEGE";
    Report.multiple_awards "URBAN AFFAIRS" "2214.00" "MA" "QUEENS COLLEGE";
    Report.multiple_institutions "2299.00" "NOT-GRANTING" "BROOKLYN COLLEGE";
    Report.for_award "MA";
    Report.certificate "NONE";
    Report.financial_aid "YES" "NO" "NO";
    Report.accreditation "" ].

(** The key with the classification code of the later M/I line and the
    award and institution of the earlier one. *)
Definition mixed_MI_key : Key :=
  mkKey "02348" "Urban Studies" (Some "2299.00") "MA" "Hunter College".

Definition urban_affairs_key : Key :=
  mkKey "02348" "Urban Affairs" (Some "2214.00") "MA" "Queens College".

(** The same program read up to its first M/I line, the NOT-GRANTING line,
    the lines between it and the accreditation line, and what the program
    branch and the M/A line have bound by then. *)
Definition before_sentinel_input : list string :=
  [ Report.program "02348" "URBAN STUDIES" "2214.00" "BA" "QUEENS COLLEGE";
    Report.multiple_institutions "2214.00" "MA" "HUNTER COLLEGE";
    Report.multiple_awards "URBAN AFFAIRS" "2214.00" "MA" "QUEENS COLLEGE" ].

Definition sentinel_MI_line : string :=
  Report.multiple_institutions "2299.00" "NOT-GRANTING" "BROOKLYN COLLEGE".

Definition MA_block_lines : list string :=
  [ Report.for_award "MA";
    Report.certificate "NONE";
    Report.financial_aid "YES" "NO" "NO" ].

Definition urban_studies_vars : ProgramVars :=
  {| program_code := "02348"; program_name := "Urban Studies";
     program_hegis := "2214.00"; program_award := "BA";
     program_institution := "Queens College";
     maw_lines := {[ mkMAW_line "Urban Affairs" "2214.00" "MA" "Queens College" ]};
     maw_awards := {[ "MA" ]};
     minst_line := true |}.

(** ** Surrounding whitespace *)

(** The first, and the last, character of [s] is whitespace. *)
Definition head_space (s : string) : bool :=
  match s with
  | EmptyString => false
  | String c _ => Py.isspace c
  end.

Fixpoint last_space (s : string) : bool :=
  match s with
  | EmptyString => false
  | String c s' =>
      match s' with
      | EmptyString => Py.isspace c
      | String _ _ => last_space s'
      end
  end.

(** [s] has no whitespace around it: [s.strip() == s]. *)
Definition trimmed (s : string) : Prop := Py.strip s = s.

(** [s] is entirely blank: every character of it is whitespace. *)
Fixpoint blank (s : string) : bool :=
  match s with
  | EmptyString => true
  | String c s' => Py.isspace c && blank s'
  end.

(** ** The columns of the financial-aid answers *)

(** The characters in columns [n], [n + 1] and [n + 2] of the line are Y, E
    and S: the line is that long, and these three columns hold the word.
    This says what [line[n:n + 3] == 'YES'] asks of the line without going
    through the slice. *)
Definition YES_in_columns (n : nat) (line : string) : Prop :=
  String.get n line = Some "Y"%char ∧
  String.get (n + 1) line = Some "E"%char ∧
  String.get (n + 2) line = Some "S"%char.

(** Two financial_aid lines: YES, NO and a YES that starts one column late;
    blanks, YES and a YE at the end of the line. *)
Definition aid_YES_NO_late : string := Report.financial_aid "YES" "NO" " YES".
Definition aid_blank_YES_cut : string := Report.financial_aid "" "YES" "YE".

(** ** The classification of a line *)

(** What the chain of [if] and [elif] tests makes of a line: one of the
    seven line types, the final [else], or no branch at all, when
    [tokens[0]] or [tokens[1]] is not there. *)
Inductive line_class : Set :=
| Typed (t : line_type.t)
| Untyped
| Tokenless.

#[global] Instance line_class_eq_dec : EqDecision line_class.
Proof. solve_decision. Defined.

Definition classify (line : string) : line_class :=
  match Py.split line with
  | [] => Tokenless
  | token :: rest =>
      if Py.isdecimal token then Typed line_type.program
      else if decide (token = "M/A") then Typed line_type.multiple_awards
      else if decide (token = "M/I") then Typed line_type.multiple_institutions
      else if decide (token = "FOR") then Typed line_type.for_award
      else if Py.startswith "CERT" token then Typed line_type.certificate_etc
      else if decide (token = "PROGRAM") then
        match rest with
        | [] => Tokenless
        | token1 :: _ =>
            if decide (token1 = "FINANCIAL") then Typed line_type.financial_aid
            else if decide (token1 = "PROFESSIONAL")
                 then Typed line_type.accreditation
            else Untyped
        end
      else Untyped
  end.

(** [tokens[0]], for a line that has one. *)
Definition first_token (line : string) : string :=
  default "" (head (Py.split line)).

(** The branch taken for a line of each type. *)
Definition branch_of (debug : bool) (t : line_type.t) (line : string) : M unit :=
  match t with
  | line_type.program => program_line debug (first_token line) line
  | line_type.multiple_awards => multiple_awards_line debug line
  | line_type.multiple_institutions => multiple_institutions_line debug line
  | line_type.for_award => for_award_line line
  | line_type.certificate_etc => certificate_etc_line line
  | line_type.financial_aid => financial_aid_line line
  | line_type.accreditation => accreditation_line debug line
  end.

(** The line types each branch accepts before it, read off its test of
    [prev_type]; the branch prints its "unexpected" message when the test
    fails. *)
Definition expected (prev : option line_type.t) (t : line_type.t) : bool :=
  match t with
  | line_type.program => bool_decide (prev = Some line_type.accreditation)
  | line_type.multiple_awards =>
      bool_decide (prev = Some line_type.program) ||
      bool_decide (prev = Some line_type.multiple_institutions)
  | line_type.multiple_institutions =>
      bool_decide (prev = Some line_type.program) ||
      bool_decide (prev = Some line_type.multiple_awards)
  | line_type.for_award =>
      bool_decide (prev = Some line_type.program) ||
      bool_decide (prev = Some line_type.multiple_awards) ||
      bool_decide (prev = Some line_type.multiple_institutions) ||
      bool_decide (prev = Some line_type.accreditation)
  | line_type.certificate_etc => bool_decide (prev = Some line_type.for_award)
  | line_type.financial_aid =>
      bool_decide (prev = Some line_type.certificate_etc) ||
      bool_decide (prev = Some line_type.for_award)
  | line_type.accreditation => bool_decide (prev = Some line_type.financial_aid)
  end.

(** The channel of the "unexpected" message: standard output in the
    program branch, standard error in the others. *)
Definition unexpected_channel (t : line_type.t) : channel :=
  match t with
  | line_type.program => Stdout
  | _ => Stderr
  end.

(** The "unexpected" messages among what was printed. *)
Definition is_unexpected (m : channel * message) : bool :=
  match m.2 with
  | Unexpected _ _ => true
  | _ => false
  end.




(** What the sequence check leaves behind: the "unexpected" messages
    printed so far, and the types of this line and of the one before. *)
Definition sequence_is (flagged : list (channel * message))
    (t : line_type.t) (prev : option line_type.t) (s : State) : Prop :=
  filter is_unexpected (output s) = flagged ∧ this_type s = t ∧
  prev_type s = prev.

(** The names of the parser other than the line counter, [prev_type] and
    what was printed. *)
Definition parser_names (s : State) :=
  (records s, program_codes s, this_type s, num_dupes s, program_vars s,
   cert s, minst_hegis s, minst_award s, minst_institution s, for_award s,
   fin_aid s).

(** [m] never ends by [exit()]. *)
Definition never_exits {A : Type} (m : M A) : Prop :=
  ∀ s s', m s ≠ Exit s'.

(** ** What the keys and the records of a run look like *)

(** A key whose program code is a decimal number among [codes], whose name,
    award and institution are stripped, whose award fits the thirteen
    columns of the award field and whose classification code, if it has
    one, fits the seven columns of that field. *)
Definition key_well_formed (codes : gset string) (k : Key) : Prop :=
  key_program_code k ∈ codes ∧ Py.isdecimal (key_program_code k) = true ∧
  trimmed (key_program_name k) ∧ trimmed (key_award k) ∧
  String.length (key_award k) ≤ 13 ∧ trimmed (key_institution k) ∧
  (∀ h, key_hegis_code k = Some h → String.length h ≤ 7).

(** Certificate fields that are all [None], or all strings, each
    stripped. *)
Definition certs_well_formed (name type date : option string) : Prop :=
  (name = None ∧ type = None ∧ date = None) ∨
  (∃ n t d, name = Some n ∧ type = Some t ∧ date = Some d ∧
            trimmed n ∧ trimmed t ∧ trimmed d).

Definition record_well_formed (r : Record_) : Prop :=
  certs_well_formed (cert_name r) (cert_type r) (cert_date r) ∧
  trimmed (accreditation r).

Definition entry_well_formed (m : MAW_line) : Prop :=
  trimmed (maw_name m) ∧ trimmed (maw_award m) ∧
  String.length (maw_award m) ≤ 13 ∧ trimmed (maw_institution m) ∧
  String.length (maw_hegis m) ≤ 7.

Definition program_well_formed (codes : gset string) (pv : ProgramVars) : Prop :=
  program_code pv ∈ codes ∧ Py.isdecimal (program_code pv) = true ∧
  trimmed (program_name pv) ∧ trimmed (program_award pv) ∧
  String.length (program_award pv) ≤ 13 ∧
  trimmed (program_institution pv) ∧
  String.length (program_hegis pv) ≤ 7 ∧
  ∀ m, m ∈ maw_lines pv → entry_well_formed m.

(** The names the keys and records are made from. *)
Definition relevant (s : State) :=
  (records s, program_codes s, program_vars s, cert s, fin_aid s,
   minst_hegis s, minst_award s, minst_institution s).

(** What holds of these names in every state of a run. *)
Definition well_formed (s : State) : Prop :=
  (∀ k r, records s !! k = Some r →
          key_well_formed (program_codes s) k ∧ record_well_formed r) ∧
  (∀ pv, program_vars s = Some pv → program_well_formed (program_codes s) pv) ∧
  (∀ c, cert s = Some c →
        certs_well_formed (certs_name c) (certs_type c) (certs_date c)) ∧
  (∀ h, minst_hegis s = Some (Some h) → String.length h ≤ 7) ∧
  (∀ a, minst_award s = Some (Some a) → trimmed a ∧ String.length a ≤ 13) ∧
  (∀ i, minst_institution s = Some i → trimmed i).

(** ** The debug flag *)




(** ** More inputs *)


(** The lines of a page header; the second starts with the token PROGRAM. *)
Definition header_lines : list string :=
  [ "NEW YORK STATE EDUCATION DEPARTMENT" +:+ Report.nl;
    "PROGRAM CODE   PROGRAM TITLE" +:+ Report.nl ].

(** A program with two M/I lines that carry an award, and the lines after
    them. *)
Definition second_MI_input : list string :=
  one_award_MI_input ++ second_award_MI_line :: after_MI_lines.

(** An M/A line for an entry that [three_MA_input] has already. *)
Definition art_therapy_line : string :=
  Report.multiple_awards "ART THERAPY" "1099.00" "MS" "QUEENS COLLEGE".

(** A certificate line with nothing after the label. *)
Definition blank_certificate_line : string := Report.certificate "".

(** The run ended by [exit()]. *)
Definition exits {A : Type} (o : outcome A) : bool :=
  match o with
  | Exit _ => true
  | Ok _ _ | Raise _ _ => false
  end.


(** ** Dispatch on the first tokens *)

Arguments Py.strip : simpl never.
Arguments Py.slice : simpl never.
Arguments Py.slice_from : simpl never.
Arguments Py.split : simpl never.
Arguments Py.sub_spaces : simpl never.
Arguments Py.match_for_award : simpl never.
Arguments Py.startswith : simpl never.
Arguments fix_title : simpl never.
Arguments institution_title : simpl never.

Ltac run_M :=
  unfold mbind, M_bind, mret, M_ret, gets, modify, read, print, raise, exit,
    when; cbn.

Ltac split_if :=
  match goal with
  | |- context [if ?b then _ else _] => destruct b eqn:?
  end.

Lemma step_multiple_awards debug line rest s :
  Py.split line = "M/A" :: rest →
  step debug line s = multiple_awards_line debug line (enter s).
Proof. intros H. unfold step. run_M. by rewrite H. Qed.

Lemma step_multiple_institutions debug line rest s :
  Py.split line = "M/I" :: rest →
  step debug line s = multiple_institutions_line debug line (enter s).
Proof. intros H. unfold step. run_M. by rewrite H. Qed.

Lemma step_for_award debug line rest s :
  Py.split line = "FOR" :: rest →
  step debug line s = for_award_line line (enter s).
Proof. intros H. unfold step. run_M. by rewrite H. Qed.

Lemma step_financial_aid debug line rest s :
  Py.split line = "PROGRAM" :: "FINANCIAL" :: rest →
  step debug line s = financial_aid_line line (enter s).
Proof. intros H. unfold step. run_M. by rewrite H. Qed.

Lemma step_accreditation debug line rest s :
  Py.split line = "PROGRAM" :: "PROFESSIONAL" :: rest →
  step debug line s = accreditation_line debug line (enter s).
Proof. intros H. unfold step. run_M. by rewrite H. Qed.

Lemma step_program debug line token rest s :
  Py.split line = token :: rest → Py.isdecimal token = true →
  step debug line s = program_line debug token line (enter s).
Proof. intros H Hd. unfold step. run_M. by rewrite H, Hd. Qed.

Lemma reaches_emitter_Ok (o : outcome unit) :
  reaches_emitter o = true → o = Ok () (final_state o).
Proof. by destruct o as [[] ?| |]. Qed.

(** ** The financial-aid booleans *)

Lemma get_slice_from a n s :
  String.get n (Py.slice_from a s) = String.get (a + n) s.
Proof.
  revert s. induction a as [|a IH]; intros s; [done|].
  destruct s as [|c s]; cbn; [by destruct n|apply IH].
Qed.

Lemma slice_to_YES s :
  Py.slice_to 3 s = "YES" ↔ YES_in_columns 0 s.
Proof.
  unfold YES_in_columns.
  destruct s as [|c1 [|c2 [|c3 s]]]; cbn; try naive_solver.
Qed.

(** [line[a:a + 3] == 'YES'] holds exactly of the lines that have the word
    in columns [a] to [a + 2]. *)
Lemma slice_YES a line :
  Py.slice a (a + 3) line = "YES" ↔ YES_in_columns a line.
Proof.
  unfold Py.slice. replace (a + 3 - a) with 3 by lia.
  rewrite slice_to_YES. unfold YES_in_columns.
  rewrite !get_slice_from. by rewrite Nat.add_0_r.
Qed.

Lemma bool_false_iff (b : bool) (P : Prop) : (b = true ↔ P) → ¬ P → b = false.
Proof. intros HP Hn. destruct b; [|done]. by destruct Hn; apply HP. Qed.

(** C9.  A financial_aid line ends the iteration normally, in whatever
    state it is read, and binds [fin_aid] to three booleans.  [tap] is true
    exactly when [line[54:57]] is the string YES, that is, when the line has
    the characters Y, E and S in its columns 54, 55 and 56; any other
    content of these columns (NO, blanks, a YES that starts a column early
    or late, a line that ends before column 56) makes it false.  The same
    holds of [apts] with columns 66 to 68 and of [vvta] with columns 77 to
    79. *)
Theorem financial_aid_booleans debug line rest s :
  Py.split line = "PROGRAM" :: "FINANCIAL" :: rest →
  ∃ s' fa,
    step debug line s = Ok () s' ∧ fin_aid s' = Some fa ∧
    (tap fa = true ↔ Py.slice 54 57 line = "YES") ∧
    (apts fa = true ↔ Py.slice 66 69 line = "YES") ∧
    (vvta fa = true ↔ Py.slice 77 80 line = "YES") ∧
    (tap fa = true ↔ YES_in_columns 54 line) ∧
    (apts fa = true ↔ YES_in_columns 66 line) ∧
    (vvta fa = true ↔ YES_in_columns 77 line).
Proof.
  intros H. erewrite step_financial_aid by eassumption.
  unfold financial_aid_line. run_M.
  split_if; cbn;
    (eexists _, _; split; [reflexivity|]; split; [reflexivity|];
     cbn [tap apts vvta]; split_and!;
     first [apply bool_decide_eq_true
           |etrans; [apply bool_decide_eq_true|];
            first [exact (slice_YES 54 line)|exact (slice_YES 66 line)
                  |exact (slice_YES 77 line)]]).
Qed.

(** ** Evaluations of the script on the example inputs *)

(** C2.  On a for_award line whose award is neither the base award nor a
    multi-award award, the script starts to format its message, which
    reads the unbound name [awards]: the run ends by [NameError] before
    anything is printed about the line (nothing at all is printed unless
    the debug flag is on), and the code after the loop is not reached. *)
Theorem unknown_award_raises_NameError (debug : bool) :
  raised (run debug unknown_award_input) = Some (NameError "awards") ∧
  printed (run debug unknown_award_input) =
    (if debug
     then [(Stdout, DebugProgram "02345" "Art History" "1003.00" "BA"
                      "Queens College")]
     else []) ∧
  reaches_emitter (run debug unknown_award_input) = false.
Proof. destruct debug; vm_compute; done. Qed.

(** C5.  The second program of the input has no financial_aid line, and
    the record stored for it has the three booleans of the first program's
    financial_aid line: the program branch resets [cert] but not
    [fin_aid]. *)
Theorem financial_aid_carried_over (debug : bool) :
  reaches_emitter (run debug missing_financial_aid_input) = true ∧
  records (final_state (run debug missing_financial_aid_input)) !! music_key =
    Some {| cert_name := None; cert_type := None; cert_date := None;
            tap_eligible := true; apts_eligible := true;
            vvta_eligible := true; accreditation := "" |}.
Proof. destruct debug; vm_compute; done. Qed.

(** C7.  An M/A line that is the first line of the file is reported as
    unexpected, and then the run ends by [NameError]: [maw_lines] is bound
    by the program branch only. *)
Theorem leading_MA_raises_NameError (debug : bool) :
  raised (run debug leading_MA_input) = Some (NameError "maw_lines") ∧
  printed (run debug leading_MA_input) =
    [(Stderr, Unexpected 1 line_type.multiple_awards)] ∧
  reaches_emitter (run debug leading_MA_input) = false.
Proof. destruct debug; vm_compute; done. Qed.

(** C8.  An empty line, a line of spaces, and a line that is the one token
    PROGRAM each end the run by [IndexError], with nothing printed. *)
Theorem tokenless_lines_raise_IndexError (debug : bool) :
  (raised (run debug [empty_line]) = Some IndexError ∧
   printed (run debug [empty_line]) = []) ∧
  (raised (run debug [blank_line]) = Some IndexError ∧
   printed (run debug [blank_line]) = []) ∧
  (raised (run debug [lone_PROGRAM_line]) = Some IndexError ∧
   printed (run debug [lone_PROGRAM_line]) = []).
Proof. destruct debug; vm_compute; done. Qed.

(** ** Properties kept by every statement *)

(** [m] keeps [I]: the state [m] ends in, however it ends, satisfies [I]
    when the state it starts in does. *)
Definition preserves {A : Type} (I : State → Prop) (m : M A) : Prop :=
  ∀ s, I s → I (final_state (m s)).

Section preserves.

Context (I : State → Prop).

Lemma preserves_ret {A} (a : A) : preserves I (mret a).
Proof. by intros s. Qed.

Lemma preserves_bind {A B} (m : M A) (f : A → M B) :
  preserves I m → (∀ a, preserves I (f a)) → preserves I (m ≫= f).
Proof.
  intros Hm Hf s Hs. specialize (Hm s Hs).
  unfold mbind, M_bind. destruct (m s); cbn in *; try done. by apply Hf.
Qed.

Lemma preserves_gets {A} (f : State → A) : preserves I (gets f).
Proof. by intros s. Qed.

Lemma preserves_read {A} name (f : State → option A) :
  preserves I (read name f).
Proof. intros s Hs. unfold read. by destruct (f s). Qed.

Lemma preserves_raise {A} e : preserves I (raise (A:=A) e).
Proof. by intros s. Qed.

Lemma preserves_exit {A} : preserves I (exit (A:=A)).
Proof. by intros s. Qed.

Lemma preserves_modify (f : State → State) :
  (∀ s, I s → I (f s)) → preserves I (modify f).
Proof. intros Hf s Hs. by apply Hf. Qed.

Lemma preserves_when b (m : M unit) : preserves I m → preserves I (when b m).
Proof. intros Hm. destruct b; [done|]. apply preserves_ret. Qed.

Lemma preserves_for_each {A} (xs : list A) (f : A → M unit) :
  (∀ x, preserves I (f x)) → preserves I (for_each xs f).
Proof.
  intros Hf. induction xs as [|x xs IH]; cbn.
  - apply preserves_ret.
  - apply preserves_bind; [apply Hf | by intros _].
Qed.

(** The part of a statement after the unbound [awards] is read is never
    run. *)
Lemma preserves_read_awards {B} (f : gset string → M B) :
  preserves I (read "awards" awards ≫= f).
Proof. by intros s. Qed.

End preserves.

(** Taking a statement apart along its binds and conditionals; [leaf] is
    tried on what is left: the assignments, the merges and the branches. *)
Ltac preserves_walk leaf :=
  repeat match goal with
  | |- preserves _ (read "awards" awards ≫= _) => apply preserves_read_awards
  | |- preserves _ (_ ≫= _) => apply preserves_bind; [|intros ?]
  | |- preserves _ (when _ _) => apply preserves_when
  | |- preserves _ (for_each _ _) => apply preserves_for_each; intros ?
  | |- preserves _ (gets _) => apply preserves_gets
  | |- preserves _ (read _ _) => apply preserves_read
  | |- preserves _ (raise _) => apply preserves_raise
  | |- preserves _ exit => apply preserves_exit
  | |- preserves _ (mret _) => apply preserves_ret
  | |- preserves _ (match ?x with _ => _ end) => destruct x eqn:?
  | |- preserves _ _ => leaf
  end.

(** A property kept by the seven branches and by the final [else] is kept
    by an iteration of the loop. *)
Lemma preserves_step (I : State → Prop) debug line :
  (∀ n s, I s → I (set_line_num n s)) →
  (∀ t s, I s → I (set_prev_type t s)) →
  (∀ token, preserves I (program_line debug token line)) →
  preserves I (multiple_awards_line debug line) →
  (head (Py.split line) = Some "M/I" →
   preserves I (multiple_institutions_line debug line)) →
  preserves I (for_award_line line) →
  preserves I (certificate_etc_line line) →
  preserves I (financial_aid_line line) →
  preserves I (accreditation_line debug line) →
  preserves I (unrecognized_line line) →
  preserves I (step debug line).
Proof.
  intros Hn Ht Hprogram HMA HMI Hfor Hcert Hfin Hacc Helse. unfold step.
  preserves_walk ltac:(idtac;
    match goal with
    | |- preserves _ (program_line _ _ _) => apply Hprogram
    | |- preserves _ (multiple_awards_line _ _) => exact HMA
    | |- preserves _ (multiple_institutions_line _ _) =>
        apply HMI; cbn; congruence
    | |- preserves _ (for_award_line _) => exact Hfor
    | |- preserves _ (certificate_etc_line _) => exact Hcert
    | |- preserves _ (financial_aid_line _) => exact Hfin
    | |- preserves _ (accreditation_line _ _) => exact Hacc
    | |- preserves _ (unrecognized_line _) => exact Helse
    | |- preserves _ (modify (set_line_num _)) =>
        apply preserves_modify; intros ??; by apply Hn
    | |- preserves _ (modify (set_prev_type _)) =>
        apply preserves_modify; intros ??; by apply Ht
    end).
Qed.

Lemma preserves_loop (I : State → Prop) debug lines :
  (∀ line, preserves I (step debug line)) → preserves I (loop debug lines).
Proof.
  intros Hstep. induction lines as [|line lines IH]; cbn.
  - apply preserves_ret.
  - apply preserves_bind; [apply Hstep | by intros _].
Qed.

(** The leaf for a property that no assignment of the branch at hand
    touches. *)
Ltac untouched :=
  match goal with
  | |- preserves _ (modify _) => apply preserves_modify; intros ? Hs; exact Hs
  | |- preserves _ (print _ _) =>
      unfold print; apply preserves_modify; intros ? Hs; exact Hs
  end.

(** ** First write wins *)






(** The theorem at two lines.  The first has YES in columns 54 to 56, NO
    from column 66 and a YES that starts in column 78: [tap] alone is true.
    The second has blanks from column 54, YES in columns 66 to 68 and ends
    with YE in columns 77 and 78: [apts] alone is true. *)
Lemma financial_aid_booleans_witness :
  (∃ s', step false aid_YES_NO_late initial_state = Ok () s' ∧
         fin_aid s' = Some (mkFinancial_aid true false false)) ∧
  (∃ s', step false aid_blank_YES_cut initial_state = Ok () s' ∧
         fin_aid s' = Some (mkFinancial_aid false true false)).
Proof.
  split.
  - assert (Py.split aid_YES_NO_late =
              ["PROGRAM"; "FINANCIAL"; "AID"; "ELIGIBILITY"; "YES"; "NO"; "YES"])
      as Hsplit by (vm_compute; reflexivity).
    destruct (financial_aid_booleans false aid_YES_NO_late _ initial_state
                Hsplit)
      as (s' & [t a v] & Hstep & Hfa & _ & _ & _ & Ht & Ha & Hv).
    exists s'. split; [exact Hstep|].
    assert (t = true) as ->.
    { apply (proj2 Ht). vm_compute.
      exact (conj eq_refl (conj eq_refl eq_refl)). }
    assert (a = false) as ->.
    { apply (bool_false_iff _ _ Ha). vm_compute. intros (H1 & H2 & H3).
      discriminate H1. }
    assert (v = false) as ->.
    { apply (bool_false_iff _ _ Hv). vm_compute. intros (H1 & H2 & H3).
      discriminate H1. }
    exact Hfa.
  - assert (Py.split aid_blank_YES_cut =
              ["PROGRAM"; "FINANCIAL"; "AID"; "ELIGIBILITY"; "YES"; "YE"])
      as Hsplit by (vm_compute; reflexivity).
    destruct (financial_aid_booleans false aid_blank_YES_cut _ initial_state
                Hsplit)
      as (s' & [t a v] & Hstep & Hfa & _ & _ & _ & Ht & Ha & Hv).
    exists s'. split; [exact Hstep|].
    assert (t = false) as ->.
    { apply (bool_false_iff _ _ Ht). vm_compute. intros (H1 & H2 & H3).
      discriminate H1. }
    assert (a = true) as ->.
    { apply (proj2 Ha). vm_compute.
      exact (conj eq_refl (conj eq_refl eq_refl)). }
    assert (v = false) as ->.
    { apply (bool_false_iff _ _ Hv). vm_compute. intros (H1 & H2 & H3).
      discriminate H3. }
    exact Hfa.
Defined.

(** ** The fatal second M/I line *)

Lemma loop_app debug pre post s :
  loop debug (pre ++ post) s =
  match loop debug pre s with
  | Ok _ s' => loop debug post s'
  | Exit s' => Exit s'
  | Raise e s' => Raise e s'
  end.
Proof.
  revert s. induction pre as [|line pre IH]; intros s; cbn; [done|].
  unfold mbind, M_bind. destruct (step debug line s); [apply IH|done..].
Qed.

Lemma loop_app_Ok debug pre post :
  reaches_emitter (run debug (pre ++ post)) = true →
  loop debug post (final_state (run debug pre)) =
    Ok () (final_state (run debug (pre ++ post))).
Proof.
  unfold run. rewrite loop_app.
  destruct (loop debug pre initial_state) as [[] s0| |]; cbn; [|done..].
  apply reaches_emitter_Ok.
Qed.

Lemma second_award_MI_line_exits debug line rest s pv :
  program_vars s = Some pv → minst_line pv = true →
  Py.split line = "M/I" :: rest →
  Py.strip (Py.slice 63 76 line) ≠ "" →
  Py.strip (Py.slice 63 76 line) ≠ "NOT-GRANTING" →
  ∃ s', step debug line s = Exit s' ∧
        last (output s') =
          Some (Stdout, SecondMI (line_num s + 1) (program_code pv)) ∧
        records s' = records s.
Proof.
  intros Hpv Hline Hsplit Hne Hng.
  erewrite step_multiple_institutions by eassumption.
  unfold multiple_institutions_line. run_M.
  destruct (_ && _); cbn;
    (rewrite (decide_False (P := _ = "NOT-GRANTING")) by done); cbn;
    (rewrite bool_decide_true by done); cbn; rewrite Hpv; cbn;
    rewrite Hline; cbn;
    (eexists; split; [reflexivity|]; cbn; rewrite last_snoc; done).
Qed.

(** C4.  When the lines [pre] have been processed and the current program
    has an M/I line with an award behind it, an M/I line whose award is
    neither empty nor NOT-GRANTING ends the run by [exit()], whatever
    lines follow: the last thing printed is the message about the second
    M/I line, [records] is as it was before the line, and the code that
    writes the spreadsheet is not reached, so that it is handed no key. *)
Theorem second_award_MI_line_aborts debug pre line post s pv rest :
  loop debug pre initial_state = Ok () s →
  program_vars s = Some pv → minst_line pv = true →
  Py.split line = "M/I" :: rest →
  Py.strip (Py.slice 63 76 line) ≠ "" →
  Py.strip (Py.slice 63 76 line) ≠ "NOT-GRANTING" →
  ∃ s', run debug (pre ++ line :: post) = Exit s' ∧
        last (output s') =
          Some (Stdout, SecondMI (line_num s + 1) (program_code pv)) ∧
        records s' = records s ∧
        reaches_emitter (run debug (pre ++ line :: post)) = false ∧
        handed_to_emitter (run debug (pre ++ line :: post)) = [].
Proof.
  intros Hpre Hpv Hline Hsplit Hne Hng.
  destruct (second_award_MI_line_exits debug line rest s pv)
    as (s' & Hstep & Hlast & Hrecs); [done..|].
  assert (run debug (pre ++ line :: post) = Exit s') as Hrun.
  { unfold run. rewrite loop_app, Hpre. cbn. unfold mbind, M_bind.
    by rewrite Hstep. }
  exists s'. rewrite Hrun. done.
Qed.

Lemma second_award_MI_line_aborts_witness :
  ∃ s', run false (one_award_MI_input ++ second_award_MI_line :: after_MI_lines)
          = Exit s' ∧
        last (output s') = Some (Stdout, SecondMI 3 "02345") ∧
        records s' = ∅ ∧
        reaches_emitter
          (run false (one_award_MI_input ++ second_award_MI_line :: after_MI_lines))
          = false ∧
        handed_to_emitter
          (run false (one_award_MI_input ++ second_award_MI_line :: after_MI_lines))
          = [].
Proof.
  apply (second_award_MI_line_aborts false one_award_MI_input
           second_award_MI_line after_MI_lines
           (final_state (run false one_award_MI_input))
           (mkProgramVars "02345" "Art History" "1003.00" "BA"
              "Queens College" ∅ ∅ true)
           ["1003.00"; "PHD"; "CUNY"; "GRADUATE"; "CENTER"]).
  - apply reaches_emitter_Ok. vm_compute. reflexivity.
  - refine (bool_decide_eq_true_1 _ _). vm_compute. reflexivity.
  - vm_compute. reflexivity.
  - vm_compute. reflexivity.
  - vm_compute. discriminate.
  - vm_compute. discriminate.
Defined.

(** ** The names are consistent in every reachable state *)

Lemma multiple_institutions_line_consistent debug line :
  preserves consistent (multiple_institutions_line debug line).
Proof.
  intros s Hs. unfold multiple_institutions_line. run_M.
  destruct (_ && _); cbn.
  all: destruct (truthy _); cbn.
  all: try (intros pv Hpv; destruct (Hs pv Hpv) as [? Hmi]; cbn;
            split; [done|]; intros Hline; destruct (Hmi Hline) as (?&?&?);
            by eauto).
  all: destruct (program_vars s) as [pv|] eqn:Hpv; cbn;
    [|by intros pv' Hpv'; cbn in Hpv'; rewrite Hpv in Hpv'].
  all: destruct (Hs pv Hpv) as [Hmaw Hmi].
  all: destruct (minst_line pv) eqn:Hline; cbn.
  all: try destruct debug; cbn.
  all: intros pv' Hpv'; cbn in *; simplify_eq; cbn.
  all: try (destruct Hmi as (?&?&?); [done|]).
  all: by eauto.
Qed.

Lemma merge_consistent debug b code key data :
  preserves consistent (merge debug b code key data).
Proof.
  intros s Hs. unfold merge. run_M.
  destruct (records s !! key); [|exact Hs].
  destruct debug; cbn; case_bool_decide; cbn; exact Hs.
Qed.

Lemma new_program_consistent pv s :
  maw_lines pv = ∅ → maw_awards pv = ∅ → minst_line pv = false →
  consistent (set_program_vars (Some pv) s).
Proof.
  intros Hl Ha Hm pv' [= <-]. rewrite Hl, Ha, Hm.
  split; [by rewrite set_map_empty|done].
Qed.

Lemma added_MA_consistent pv s maw_line :
  consistent s → program_vars s = Some pv →
  consistent (set_program_vars (Some
    {| program_code := program_code pv; program_name := program_name pv;
       program_hegis := program_hegis pv; program_award := program_award pv;
       program_institution := program_institution pv;
       maw_lines := {[maw_line]} ∪ maw_lines pv;
       maw_awards := {[maw_award maw_line]} ∪ maw_awards pv;
       minst_line := minst_line pv |}) s).
Proof.
  intros Hs Hpv pv' [= <-]. destruct (Hs pv Hpv) as [Hmaw Hmi]. cbn.
  split; [|exact Hmi].
  by rewrite set_map_union_L, set_map_singleton_L, Hmaw.
Qed.

Lemma multiple_awards_line_consistent debug line :
  preserves consistent (multiple_awards_line debug line).
Proof.
  intros s Hs. unfold multiple_awards_line. run_M.
  destruct (_ && _); cbn.
  all: destruct (program_vars s) as [pv|] eqn:Hpv; cbn; [|exact Hs].
  all: case_bool_decide; cbn; destruct debug; cbn.
  all: by apply (added_MA_consistent pv).
Qed.

Lemma step_consistent debug line : preserves consistent (step debug line).
Proof.
  apply preserves_step; try done; intros;
    [ | apply multiple_awards_line_consistent
      | apply multiple_institutions_line_consistent | .. ];
    unfold program_line, for_award_line, certificate_etc_line,
      financial_aid_line, accreditation_line, generate_keys,
      unrecognized_line;
    cbv zeta;
    preserves_walk ltac:(first
      [ apply merge_consistent
      | untouched
      | apply preserves_modify; intros ? Hs; by apply new_program_consistent ]).
Qed.

Lemma loop_consistent debug lines : preserves consistent (loop debug lines).
Proof. apply preserves_loop. intros. apply step_consistent. Qed.

Lemma reachable_consistent debug lines s :
  loop debug lines initial_state = Ok () s → consistent s.
Proof.
  intros Hrun. pose proof (loop_consistent debug lines initial_state) as H.
  rewrite Hrun in H. apply H. by intros pv.
Qed.

(** ** What an accreditation line merges *)

Lemma grows_by_refl data recs : grows_by data ∅ recs recs.
Proof.
  split_and!; [done|set_solver|].
  intros k Hk [r Hr]%elem_of_dom. congruence.
Qed.

Lemma grows_by_insert_new data key recs :
  grows_by data {[key]} recs (insert_new key data recs).
Proof.
  unfold insert_new. destruct (recs !! key) as [old|] eqn:Hkey.
  - split_and!; [done| |].
    + apply elem_of_dom_2 in Hkey. set_solver.
    + intros k Hk [r Hr]%elem_of_dom. congruence.
  - split_and!.
    + intros k r Hk. rewrite lookup_insert_ne; [done|congruence].
    + rewrite dom_insert_L. set_solver.
    + intros k Hk [r Hr]%elem_of_dom.
      destruct (decide (key = k)) as [->|Hne].
      * by rewrite lookup_insert_eq.
      * rewrite lookup_insert_ne in Hr by done. congruence.
Qed.

Lemma grows_by_trans data X Y recs recs' recs'' :
  grows_by data X recs recs' → grows_by data Y recs' recs'' →
  grows_by data (X ∪ Y) recs recs''.
Proof.
  intros (Hkeep & Hdom & Hnew) (Hkeep' & Hdom' & Hnew'). split_and!.
  - auto.
  - rewrite Hdom', Hdom. set_solver.
  - intros k Hk Hin. destruct (recs' !! k) as [r|] eqn:Hk'.
    + rewrite (Hkeep' k r Hk'). rewrite <- Hk'. apply Hnew; [done|].
      by apply elem_of_dom_2 in Hk'.
    + by apply Hnew'.
Qed.

Lemma grows_by_proper data X Y recs recs' :
  X = Y → grows_by data X recs recs' → grows_by data Y recs recs'.
Proof. by intros ->. Qed.

Lemma expands_refl data s : expands data ∅ s s.
Proof. split; [apply grows_by_refl|done]. Qed.

Lemma expands_trans data X Y s s' s'' :
  expands data X s s' → expands data Y s' s'' → expands data (X ∪ Y) s s''.
Proof.
  intros [Hg Hn] [Hg' Hn']. split; [by eapply grows_by_trans|congruence].
Qed.

Lemma merge_expands debug b code key data s :
  ∃ s', merge debug b code key data s = Ok () s' ∧ expands data {[key]} s s'.
Proof.
  pose proof (grows_by_insert_new data key (records s)) as Hg.
  unfold merge, insert_new in *. run_M.
  destruct (records s !! key) as [old|] eqn:Hkey; cbn.
  - destruct debug; cbn; case_bool_decide; cbn;
      (eexists; split; [reflexivity|]; split; [exact Hg|done]).
  - eexists; split; [reflexivity|]; split; [exact Hg|done].
Qed.

Lemma print_expands data ch m s :
  ∃ s', print ch m s = Ok () s' ∧ expands data ∅ s s'.
Proof.
  eexists. split; [reflexivity|]. split; [apply grows_by_refl|done].
Qed.

(** The loop over [maw_lines] merges the keys of the entries for the
    award. *)
Lemma MA_loop_expands debug code award data (l : list MAW_line) s :
  ∃ s',
    for_each l (λ maw_line,
      when (bool_decide (maw_award maw_line = award))
        (merge debug MA_branch code
           (mkKey code (maw_name maw_line) (Some (maw_hegis maw_line))
              (maw_award maw_line) (maw_institution maw_line))
           data)) s = Ok () s' ∧
    expands data
      (list_to_set (MA_key code <$> filter (λ m, maw_award m = award) l)) s s'.
Proof.
  revert s. induction l as [|m l IH]; intros s.
  - eexists. split; [reflexivity|]. apply expands_refl.
  - cbn [for_each]. unfold mbind, M_bind. rewrite filter_cons.
    destruct (decide (maw_award m = award)) as [Hm|Hm].
    + rewrite bool_decide_true by done. cbn [when].
      destruct (merge_expands debug MA_branch code (MA_key code m) data s)
        as (s1 & Hs1 & He1).
      unfold MA_key in Hs1 at 1. rewrite Hs1.
      destruct (IH s1) as (s2 & Hs2 & He2). exists s2. split; [done|].
      rewrite fmap_cons, list_to_set_cons. by eapply expands_trans.
    + rewrite bool_decide_false by done. cbn [when]. apply IH.
Qed.

Lemma MA_keys_elements pv award :
  list_to_set (MA_key (program_code pv) <$>
                 filter (λ m, maw_award m = award) (elements (maw_lines pv)))
  = MA_keys pv award.
Proof.
  unfold MA_keys, MA_entries. apply set_eq. intros k.
  rewrite elem_of_list_to_set, list_elem_of_fmap, elem_of_map.
  split; intros (m & -> & Hm); exists m; (split; [done|]).
  - apply list_elem_of_filter in Hm as [? ?%elem_of_elements].
    by apply elem_of_filter.
  - apply elem_of_filter in Hm as [? ?]. apply list_elem_of_filter.
    by rewrite elem_of_elements.
Qed.

Lemma MA_keys_empty pv award :
  maw_awards pv = set_map maw_award (maw_lines pv) →
  award ∉ maw_awards pv → MA_keys pv award = ∅.
Proof.
  intros Hmaw Hnot. unfold MA_keys, MA_entries. apply set_eq. intros k.
  rewrite elem_of_map. split; [|set_solver].
  intros (m & -> & [Hm Hin]%elem_of_filter). exfalso. apply Hnot.
  rewrite Hmaw. apply elem_of_map. by exists m.
Qed.

Lemma runs_bind data X Y (m : M unit) (k : unit → M unit) s :
  runs data X m s →
  (∀ s', expands data X s s' → runs data Y (k ()) s') →
  runs data (X ∪ Y) (m ≫= k) s.
Proof.
  intros (s1 & Hm & He) Hk. destruct (Hk s1 He) as (s2 & Hk2 & He2).
  exists s2. unfold mbind, M_bind. rewrite Hm.
  split; [done|by eapply expands_trans].
Qed.

Lemma runs_when data X b (m : M unit) s :
  (b = true → runs data X m s) → (b = false → X = ∅) →
  runs data X (when b m) s.
Proof.
  intros Ht Hf. destruct b; cbn; [by apply Ht|].
  rewrite Hf by done. eexists. split; [reflexivity|apply expands_refl].
Qed.

Lemma runs_ret data s : runs data ∅ (mret ()) s.
Proof. eexists. split; [reflexivity|apply expands_refl]. Qed.

Lemma runs_read {A} data X name (f : State → option A) (k : A → M unit) a s :
  f s = Some a → runs data X (k a) s → runs data X (read name f ≫= k) s.
Proof.
  intros Hf (s' & Hk & He). exists s'. unfold mbind, M_bind, read.
  by rewrite Hf.
Qed.

Lemma expands_names_MI data X s s' :
  expands data X s s' →
  minst_hegis s' = minst_hegis s ∧ minst_award s' = minst_award s ∧
  minst_institution s' = minst_institution s ∧
  program_vars s' = program_vars s.
Proof. intros [_ Hn]. unfold names in Hn. by simplify_eq. Qed.

(** The three blocks of the accreditation branch, one after the other:
    each merges its keys, whatever the others did. *)
Lemma expansion_runs debug pv award data s :
  program_vars s = Some pv → consistent s →
  runs data (MA_keys pv award ∪ MI_keys s pv award ∪ program_keys pv award)
    (generate_keys debug pv award data) s.
Proof.
  intros Hpv Hs. destruct (Hs pv Hpv) as [Hmaw Hmi]. unfold generate_keys.
  rewrite <- (assoc_L (∪)). apply runs_bind.
  { apply runs_when.
    - intros _. rewrite <- MA_keys_elements. apply MA_loop_expands.
    - intros Hnot%bool_decide_eq_false. by apply MA_keys_empty. }
  intros s1 (Hhegis & Haward & Hinst & _)%expands_names_MI. apply runs_bind.
  { unfold MI_keys. apply runs_when; [|by intros ->].
    intros Hline. rewrite Hline. destruct (Hmi Hline) as ([h Hh] & [a Ha] & [i Hi]).
    rewrite Hh, Ha, Hi.
    eapply runs_read; [rewrite Haward; exact Ha|].
    destruct a as [a|]; [|apply runs_ret].
    apply runs_when.
    - intros Heq%bool_decide_eq_true. rewrite decide_True by done.
      eapply runs_read; [rewrite Hhegis; exact Hh|].
      eapply runs_read; [rewrite Hinst; exact Hi|].
      apply merge_expands.
    - intros Hne%bool_decide_eq_false. by rewrite decide_False. }
  intros s2 _. unfold program_keys. apply runs_when.
  - intros Heq%bool_decide_eq_true. rewrite decide_True by done.
    apply merge_expands.
  - intros Hne%bool_decide_eq_false. by rewrite decide_False.
Qed.

Arguments generate_keys : simpl never.

Lemma accreditation_line_generates debug line s pv c fa award :
  program_vars s = Some pv → cert s = Some c → fin_aid s = Some fa →
  for_award s = Some award →
  ∃ s0, accreditation_line debug line s =
          generate_keys debug pv award
            (mkRecord (certs_name c) (certs_type c) (certs_date c)
               (tap fa) (apts fa) (vvta fa) (Py.strip (Py.slice_from 45 line)))
            s0 ∧
        records s0 = records s ∧ program_vars s0 = Some pv ∧
        minst_hegis s0 = minst_hegis s ∧ minst_award s0 = minst_award s ∧
        minst_institution s0 = minst_institution s.
Proof.
  intros Hpv Hc Hfa Haward. unfold accreditation_line. run_M.
  destruct (bool_decide _); cbn; rewrite Hc; cbn; rewrite Hfa; cbn;
    rewrite Haward; cbn; rewrite Hpv; cbn;
    (eexists; split; [reflexivity|done]).
Qed.

Lemma MA_key_inj code : Inj (=) (=) (MA_key code).
Proof. intros [] [] [=]. by subst. Qed.

Lemma size_MA_keys pv award :
  size (MA_keys pv award) = size (MA_entries pv award).
Proof.
  unfold MA_keys, set_map. rewrite size_list_to_set.
  - by rewrite length_fmap.
  - apply NoDup_fmap_2; [apply MA_key_inj|apply NoDup_elements].
Qed.

(** C1.  In a state [s] the loop reaches, with the names the accreditation
    branch reads bound, an accreditation line ends normally, and:
    - the keys of the multi-award block, [MA_keys], are the keys made from
      the entries of [maw_lines] whose award is the award of the block, one
      for each entry, so that there are as many of them as such entries;
    - the keys of [records] after the line are those before it together
      with the keys of the three blocks, each block contributing under its
      own condition only;
    - every key that is new has the record assembled at this line, and
      every key that was there has the record it had. *)
Theorem multi_award_expansion debug pre line rest s pv c fa award :
  loop debug pre initial_state = Ok () s →
  Py.split line = "PROGRAM" :: "PROFESSIONAL" :: rest →
  program_vars s = Some pv → cert s = Some c → fin_aid s = Some fa →
  for_award s = Some award →
  ∃ s',
    step debug line s = Ok () s' ∧
    (∀ k, k ∈ MA_keys pv award ↔
          ∃ m, m ∈ maw_lines pv ∧ maw_award m = award ∧
               k = MA_key (program_code pv) m) ∧
    size (MA_keys pv award) = size (MA_entries pv award) ∧
    dom (records s') =
      dom (records s) ∪ MA_keys pv award ∪ MI_keys s pv award
        ∪ program_keys pv award ∧
    (∀ k, records s !! k = None → k ∈ dom (records s') →
          records s' !! k =
            Some (mkRecord (certs_name c) (certs_type c) (certs_date c)
                    (tap fa) (apts fa) (vvta fa)
                    (Py.strip (Py.slice_from 45 line)))) ∧
    (∀ k r, records s !! k = Some r → records s' !! k = Some r).
Proof.
  intros Hpre Hsplit Hpv Hc Hfa Haward.
  apply reachable_consistent in Hpre as Hs.
  erewrite step_accreditation by eassumption.
  destruct (accreditation_line_generates debug line (enter s) pv c fa award)
    as (s0 & -> & Hrecs & Hpv0 & Hh & Ha & Hi); [done..|].
  assert (consistent s0) as Hs0.
  { intros pv' Hpv'. rewrite Hpv0 in Hpv'. simplify_eq.
    rewrite Hh, Ha, Hi. exact (Hs pv' Hpv). }
  destruct (expansion_runs debug pv award
              (mkRecord (certs_name c) (certs_type c) (certs_date c)
                 (tap fa) (apts fa) (vvta fa)
                 (Py.strip (Py.slice_from 45 line))) s0 Hpv0 Hs0)
    as (s' & Hrun & (Hkeep & Hdom & Hnew) & _).
  assert (MI_keys s0 pv award = MI_keys s pv award) as HMI.
  { unfold MI_keys. by rewrite Hh, Ha, Hi. }
  rewrite Hrecs, HMI in *. exists s'. split_and!; try done.
  - intros k. unfold MA_keys, MA_entries. rewrite elem_of_map.
    setoid_rewrite elem_of_filter. naive_solver.
  - apply size_MA_keys.
  - rewrite Hdom. by rewrite !(assoc_L (∪)).
Qed.

Lemma multi_award_expansion_witness :
  ∃ s',
    step false NCATE_line (final_state (run false three_MA_input)) = Ok () s' ∧
    (∀ k, k ∈ MA_keys three_MA_vars "MA" ↔
          ∃ m, m ∈ maw_lines three_MA_vars ∧ maw_award m = "MA" ∧
               k = MA_key (program_code three_MA_vars) m) ∧
    size (MA_keys three_MA_vars "MA") = size (MA_entries three_MA_vars "MA") ∧
    dom (records s') =
      dom (records (final_state (run false three_MA_input)))
        ∪ MA_keys three_MA_vars "MA"
        ∪ MI_keys (final_state (run false three_MA_input)) three_MA_vars "MA"
        ∪ program_keys three_MA_vars "MA" ∧
    (∀ k, records (final_state (run false three_MA_input)) !! k = None →
          k ∈ dom (records s') →
          records s' !! k =
            Some (mkRecord (certs_name Certs_etc_default)
                    (certs_type Certs_etc_default)
                    (certs_date Certs_etc_default)
                    (tap (mkFinancial_aid true false false))
                    (apts (mkFinancial_aid true false false))
                    (vvta (mkFinancial_aid true false false))
                    (Py.strip (Py.slice_from 45 NCATE_line)))) ∧
    (∀ k r, records (final_state (run false three_MA_input)) !! k = Some r →
            records s' !! k = Some r).
Proof.
  apply (multi_award_expansion false three_MA_input NCATE_line
           ["ACCREDITATION"; "NCATE"]
           (final_state (run false three_MA_input)) three_MA_vars
           Certs_etc_default (mkFinancial_aid true false false) "MA").
  - apply reaches_emitter_Ok. vm_compute. reflexivity.
  - vm_compute. reflexivity.
  - refine (bool_decide_eq_true_1 _ _). vm_compute. reflexivity.
  - vm_compute. reflexivity.
  - vm_compute. reflexivity.
  - vm_compute. reflexivity.
Defined.

(** The example of the witness in numbers: two entries for MA, hence two
    keys from the multi-award block, and a third key from the base
    program, whose award is MA as well. *)
Example three_MA_counts :
  size (MA_entries three_MA_vars "MA") = 2 ∧
  size (MA_keys three_MA_vars "MA") = 2 ∧
  size (program_keys three_MA_vars "MA") = 1 ∧
  size (records (final_state (run false (three_MA_input ++ [NCATE_line])))) = 3.
Proof. vm_compute. done. Qed.

(** ** The names of the M/I branch *)

(** C10, as stated, at an input.  After an M/I line with the award MA and
    a later NOT-GRANTING M/I line of the same program, [minst_hegis] is the
    code of the later line and [minst_institution] the institution of the
    earlier one, but [minst_award] is [None]: the award is not kept from
    the first line.  The run ends normally, and the key that combines the
    later code with the earlier award and institution is not in [records],
    whose only key is the one of the M/A line. *)
Lemma sentinel_MI_line_erases_award :
  reaches_emitter (run false MI_then_sentinel_input) = true ∧
  minst_hegis (final_state (run false MI_then_sentinel_input))
    = Some (Some "2299.00") ∧
  minst_institution (final_state (run false MI_then_sentinel_input))
    = Some "Hunter College" ∧
  minst_award (final_state (run false MI_then_sentinel_input)) = Some None ∧
  mixed_MI_key ∉ dom (records (final_state (run false MI_then_sentinel_input))) ∧
  dom (records (final_state (run false MI_then_sentinel_input)))
    = {[ urban_affairs_key ]}.
Proof.
  split_and!.
  - vm_compute. reflexivity.
  - vm_compute. reflexivity.
  - vm_compute. reflexivity.
  - vm_compute. reflexivity.
  - apply not_elem_of_dom. vm_compute. reflexivity.
  - refine (bool_decide_eq_true_1 _ _). vm_compute. reflexivity.
Qed.

Lemma multiple_institutions_line_names debug line s s' :
  multiple_institutions_line debug line s = Ok () s' →
  minst_hegis s' =
    Some (if decide (Py.strip (Py.slice 52 59 line) = "") then None
          else Some (Py.strip (Py.slice 52 59 line))) ∧
  minst_award s' =
    Some (if decide (Py.strip (Py.slice 63 76 line) = "NOT-GRANTING") then None
          else Some (Py.strip (Py.slice 63 76 line))) ∧
  (Py.strip (Py.slice 63 76 line) ≠ "NOT-GRANTING" →
   Py.strip (Py.slice 63 76 line) ≠ "" →
   minst_institution s' = Some (institution_title (Py.slice_from 76 line))) ∧
  (Py.strip (Py.slice 63 76 line) = "NOT-GRANTING" ∨
   Py.strip (Py.slice 63 76 line) = "" →
   minst_institution s' = minst_institution s).
Proof.
  unfold multiple_institutions_line.
  generalize (Py.strip (Py.slice 52 59 line)) (Py.strip (Py.slice 63 76 line))
    (institution_title (Py.slice_from 76 line)).
  intros hg aw inst. cbv zeta.
  destruct (decide (aw = "NOT-GRANTING")) as [Hng|Hng].
  - unfold truthy, when at 2. unfold mbind, M_bind, modify, gets, mret, M_ret.
    cbv beta iota. destruct (when _ _ _) as [[] ?| |] eqn:Hw; try done.
    unfold when, print, modify, mret, M_ret in Hw.
    destruct (_ && _); simplify_eq; intros [= <-]; cbn; split_and!;
      try done; by intros [].
  - unfold truthy. case_bool_decide as Hne.
    + unfold mbind, M_bind, modify, gets, mret, M_ret, read.
      cbv beta iota. destruct (when _ _ _) as [[] s0| |] eqn:Hw; try done.
      assert (program_vars s0 = program_vars s ∧
              minst_institution s0 = minst_institution s) as [Hpv Hi].
      { unfold when, print, modify, mret, M_ret in Hw.
        by destruct (_ && _); simplify_eq. }
      cbn [when]. cbn [program_vars set_minst_award set_minst_hegis].
      destruct (program_vars s0) as [pv|]; [|done].
      destruct (minst_line pv); [done|]. cbn [when].
      unfold mret, M_ret. cbv beta iota.
      destruct debug; cbn [when]; unfold print, modify; intros [= <-]; cbn;
        (split_and!; [done|done|done|by intros []]).
    + unfold when at 2. unfold mbind, M_bind, modify, gets, mret, M_ret.
      cbv beta iota. destruct (when _ _ _) as [[] ?| |] eqn:Hw; try done.
      unfold when, print, modify, mret, M_ret in Hw.
      destruct (_ && _); simplify_eq; intros [= <-]; cbn; split_and!;
        try done; by intros [].
Qed.

Lemma step_keeps_MI_names debug line h a i :
  head (Py.split line) ≠ Some "M/I" →
  preserves (λ s, minst_hegis s = h ∧ minst_award s = a ∧
                  minst_institution s = i) (step debug line).
Proof.
  intros Hline. apply preserves_step; try done; intros;
    unfold program_line, multiple_awards_line, for_award_line,
      certificate_etc_line, financial_aid_line, accreditation_line,
      generate_keys, merge, unrecognized_line;
    cbv zeta; preserves_walk ltac:(idtac; untouched).
Qed.

Lemma loop_keeps_MI_names debug lines h a i :
  Forall (λ l, head (Py.split l) ≠ Some "M/I") lines →
  preserves (λ s, minst_hegis s = h ∧ minst_award s = a ∧
                  minst_institution s = i) (loop debug lines).
Proof.
  induction 1 as [|line lines Hline _ IH]; cbn.
  - apply preserves_ret.
  - apply preserves_bind; [by apply step_keeps_MI_names | by intros _].
Qed.

(** C10, amended.  Let an M/I line be followed by lines [mid] none of which
    is an M/I line, and then by an accreditation line.  When the
    accreditation line is read,
    - [minst_hegis] and [minst_award] are the classification code and the
      award of that M/I line, the award being [None] for NOT-GRANTING;
    - [minst_institution] is the institution of that line when the line
      has an award, and is what it was before the line otherwise;
    - the accreditation line ends normally, and the multiple-institutions
      block contributes the keys [MI_keys]: none when the M/I line is a
      NOT-GRANTING line, whatever M/I lines came before it, and otherwise
      at most the key with the code and the award of that line and the
      current [minst_institution]. *)
Theorem MI_key_follows_latest_MI_line
    debug pre line rest mid acc_line rest' s s1 pv c fa award :
  loop debug pre initial_state = Ok () s →
  Py.split line = "M/I" :: rest →
  Forall (λ l, head (Py.split l) ≠ Some "M/I") mid →
  loop debug (line :: mid) s = Ok () s1 →
  Py.split acc_line = "PROGRAM" :: "PROFESSIONAL" :: rest' →
  program_vars s1 = Some pv → cert s1 = Some c → fin_aid s1 = Some fa →
  for_award s1 = Some award →
  minst_hegis s1 =
    Some (if decide (Py.strip (Py.slice 52 59 line) = "") then None
          else Some (Py.strip (Py.slice 52 59 line))) ∧
  minst_award s1 =
    Some (if decide (Py.strip (Py.slice 63 76 line) = "NOT-GRANTING") then None
          else Some (Py.strip (Py.slice 63 76 line))) ∧
  (Py.strip (Py.slice 63 76 line) ≠ "NOT-GRANTING" →
   Py.strip (Py.slice 63 76 line) ≠ "" →
   minst_institution s1 = Some (institution_title (Py.slice_from 76 line))) ∧
  (Py.strip (Py.slice 63 76 line) = "NOT-GRANTING" ∨
   Py.strip (Py.slice 63 76 line) = "" →
   minst_institution s1 = minst_institution s) ∧
  ∃ s2,
    step debug acc_line s1 = Ok () s2 ∧
    dom (records s2) =
      dom (records s1) ∪ MA_keys pv award ∪ MI_keys s1 pv award
        ∪ program_keys pv award ∧
    (Py.strip (Py.slice 63 76 line) = "NOT-GRANTING" →
     MI_keys s1 pv award = ∅) ∧
    (∀ k, k ∈ MI_keys s1 pv award →
          Py.strip (Py.slice 63 76 line) = award ∧
          key_award k = award ∧
          key_hegis_code k =
            (if decide (Py.strip (Py.slice 52 59 line) = "") then None
             else Some (Py.strip (Py.slice 52 59 line))) ∧
          minst_institution s1 = Some (key_institution k) ∧
          key_program_code k = program_code pv ∧
          key_program_name k = Py.sub_spaces (program_name pv)).
Proof.
  intros Hpre Hsplit Hmid Hloop Hacc Hpv Hc Hfa Haward.
  (* the state is one the loop reaches *)
  assert (consistent s1) as Hs1.
  { apply (reachable_consistent debug (pre ++ line :: mid)).
    by rewrite loop_app, Hpre. }
  (* the M/I line, then the lines after it *)
  cbn [loop] in Hloop. unfold mbind, M_bind in Hloop.
  destruct (step debug line s) as [[] s0| |] eqn:Hstep; try done.
  erewrite step_multiple_institutions in Hstep by eassumption.
  apply multiple_institutions_line_names in Hstep
    as (Hh0 & Ha0 & Hi0 & Hi0').
  pose proof (loop_keeps_MI_names debug mid _ _ _ Hmid s0
                (conj Hh0 (conj Ha0 eq_refl))) as Hkept.
  rewrite Hloop in Hkept. cbn in Hkept. destruct Hkept as (Hh1 & Ha1 & Hi1).
  split_and!; [done|done|by rewrite Hi1; auto|by rewrite Hi1; auto|].
  (* the accreditation line *)
  erewrite step_accreditation by eassumption.
  destruct (accreditation_line_generates debug acc_line (enter s1) pv c fa
              award) as (s1' & -> & Hrecs & Hpv' & Hh & Ha & Hi); [done..|].
  assert (consistent s1') as Hs1'.
  { intros pv' Hpv''. rewrite Hpv' in Hpv''. simplify_eq.
    rewrite Hh, Ha, Hi. exact (Hs1 pv' Hpv). }
  destruct (expansion_runs debug pv award
              (mkRecord (certs_name c) (certs_type c) (certs_date c)
                 (tap fa) (apts fa) (vvta fa)
                 (Py.strip (Py.slice_from 45 acc_line))) s1' Hpv' Hs1')
    as (s2 & Hrun & (_ & Hdom & _) & _).
  assert (MI_keys s1' pv award = MI_keys s1 pv award) as HMI.
  { unfold MI_keys. by rewrite Hh, Ha, Hi. }
  rewrite Hrecs, HMI in Hdom. exists s2. split_and!; [done| | |].
  - rewrite Hdom. by rewrite !(assoc_L (∪)).
  - intros Hng. unfold MI_keys. rewrite Ha1, decide_True by done.
    by destruct (minst_line pv).
  - intros k. unfold MI_keys. rewrite Hh1, Ha1.
    destruct (minst_line pv); [|set_solver].
    destruct (decide (_ = "NOT-GRANTING")); [set_solver|].
    destruct (minst_institution s1) as [inst|]; [|set_solver].
    destruct (decide (_ = award)) as [Heq|]; [|set_solver].
    intros ->%elem_of_singleton. by cbn.
Qed.

Lemma MI_key_follows_latest_MI_line_witness :
  minst_hegis (final_state (run false
      (before_sentinel_input ++ sentinel_MI_line :: MA_block_lines))) =
    Some (if decide (Py.strip (Py.slice 52 59 sentinel_MI_line) = "") then None
          else Some (Py.strip (Py.slice 52 59 sentinel_MI_line))) ∧
  minst_award (final_state (run false
      (before_sentinel_input ++ sentinel_MI_line :: MA_block_lines))) =
    Some (if decide (Py.strip (Py.slice 63 76 sentinel_MI_line) = "NOT-GRANTING")
          then None
          else Some (Py.strip (Py.slice 63 76 sentinel_MI_line))) ∧
  (Py.strip (Py.slice 63 76 sentinel_MI_line) ≠ "NOT-GRANTING" →
   Py.strip (Py.slice 63 76 sentinel_MI_line) ≠ "" →
   minst_institution (final_state (run false
      (before_sentinel_input ++ sentinel_MI_line :: MA_block_lines))) =
     Some (institution_title (Py.slice_from 76 sentinel_MI_line))) ∧
  (Py.strip (Py.slice 63 76 sentinel_MI_line) = "NOT-GRANTING" ∨
   Py.strip (Py.slice 63 76 sentinel_MI_line) = "" →
   minst_institution (final_state (run false
      (before_sentinel_input ++ sentinel_MI_line :: MA_block_lines))) =
     minst_institution (final_state (run false before_sentinel_input))) ∧
  ∃ s2,
    step false (Report.accreditation "")
      (final_state (run false
         (before_sentinel_input ++ sentinel_MI_line :: MA_block_lines)))
      = Ok () s2 ∧
    dom (records s2) =
      dom (records (final_state (run false
             (before_sentinel_input ++ sentinel_MI_line :: MA_block_lines))))
        ∪ MA_keys urban_studies_vars "MA"
        ∪ MI_keys (final_state (run false
             (before_sentinel_input ++ sentinel_MI_line :: MA_block_lines)))
            urban_studies_vars "MA"
        ∪ program_keys urban_studies_vars "MA" ∧
    (Py.strip (Py.slice 63 76 sentinel_MI_line) = "NOT-GRANTING" →
     MI_keys (final_state (run false
         (before_sentinel_input ++ sentinel_MI_line :: MA_block_lines)))
       urban_studies_vars "MA" = ∅) ∧
    (∀ k, k ∈ MI_keys (final_state (run false
               (before_sentinel_input ++ sentinel_MI_line :: MA_block_lines)))
            urban_studies_vars "MA" →
          Py.strip (Py.slice 63 76 sentinel_MI_line) = "MA" ∧
          key_award k = "MA" ∧
          key_hegis_code k =
            (if decide (Py.strip (Py.slice 52 59 sentinel_MI_line) = "")
             then None
             else Some (Py.strip (Py.slice 52 59 sentinel_MI_line))) ∧
          minst_institution (final_state (run false
              (before_sentinel_input ++ sentinel_MI_line :: MA_block_lines)))
            = Some (key_institution k) ∧
          key_program_code k = program_code urban_studies_vars ∧
          key_program_name k = Py.sub_spaces (program_name urban_studies_vars)).
Proof.
  apply (MI_key_follows_latest_MI_line false before_sentinel_input
           sentinel_MI_line ["2299.00"; "NOT-GRANTING"; "BROOKLYN"; "COLLEGE"]
           MA_block_lines (Report.accreditation "")
           ["ACCREDITATION"]
           (final_state (run false before_sentinel_input))
           (final_state (run false
              (before_sentinel_input ++ sentinel_MI_line :: MA_block_lines)))
           urban_studies_vars Certs_etc_default
           (mkFinancial_aid true false false) "MA").
  - apply reaches_emitter_Ok. vm_compute. reflexivity.
  - vm_compute. reflexivity.
  - refine (bool_decide_eq_true_1 _ _). vm_compute. reflexivity.
  - apply (loop_app_Ok false before_sentinel_input
             (sentinel_MI_line :: MA_block_lines)).
    vm_compute. reflexivity.
  - vm_compute. reflexivity.
  - refine (bool_decide_eq_true_1 _ _). vm_compute. reflexivity.
  - vm_compute. reflexivity.
  - vm_compute. reflexivity.
  - vm_compute. reflexivity.
Defined.

(** ** Stripping and what keeps a string stripped *)

Lemma lstrip_head s : head_space (Py.lstrip s) = false.
Proof.
  induction s as [|c s IH]; cbn; [done|].
  destruct (Py.isspace c) eqn:Hc; [done|]. cbn. by rewrite Hc.
Qed.

Lemma rstrip_cases s :
  Py.rstrip s = "" ∨
  ∃ c s' r, s = String c s' ∧ Py.rstrip s = String c r.
Proof.
  destruct s as [|c s]; cbn; [by left|].
  destruct (Py.rstrip s) eqn:Hr.
  - destruct (Py.isspace c); [by left|right; eauto].
  - right. eauto.
Qed.

Lemma rstrip_head s : head_space s = false → head_space (Py.rstrip s) = false.
Proof.
  intros Hs. destruct (rstrip_cases s) as [->|(c & s' & r & -> & ->)]; done.
Qed.

Lemma rstrip_last s : last_space (Py.rstrip s) = false.
Proof.
  induction s as [|c s IH]; cbn; [done|].
  destruct (Py.rstrip s) as [|c' r] eqn:Hr.
  - destruct (Py.isspace c) eqn:Hc; cbn; [done|by rewrite Hc].
  - done.
Qed.

Lemma lstrip_id s : head_space s = false → Py.lstrip s = s.
Proof. destruct s as [|c s]; cbn; [done|]. by intros ->. Qed.

Lemma rstrip_id s : last_space s = false → Py.rstrip s = s.
Proof.
  induction s as [|c s IH]; cbn; [done|].
  destruct s as [|c' s]; [by intros ->|].
  intros Hs. rewrite (IH Hs). done.
Qed.

Lemma trimmed_iff s : trimmed s ↔ head_space s = false ∧ last_space s = false.
Proof.
  unfold trimmed, Py.strip. split.
  - intros <-. split; [apply rstrip_head, lstrip_head|apply rstrip_last].
  - intros [Hh Hl]. by rewrite (lstrip_id s Hh), (rstrip_id s Hl).
Qed.

Lemma strip_trimmed s : trimmed (Py.strip s).
Proof.
  apply trimmed_iff. unfold Py.strip.
  split; [apply rstrip_head, lstrip_head|apply rstrip_last].
Qed.

Lemma blank_lstrip s : blank s = true → Py.lstrip s = "".
Proof.
  induction s as [|c s IH]; cbn; [done|].
  intros [-> Hs]%andb_prop. by apply IH.
Qed.

Lemma blank_strip s : blank s = true → Py.strip s = "".
Proof. intros Hs. unfold Py.strip. by rewrite blank_lstrip. Qed.

(** ** Title-casing and replacement keep a string stripped *)

Lemma isspace_upper c : Py.isspace (Py.upper c) = Py.isspace c.
Proof. by destruct c as [[] [] [] [] [] [] [] []]. Qed.

Lemma isspace_lower c : Py.isspace (Py.lower c) = Py.isspace c.
Proof. by destruct c as [[] [] [] [] [] [] [] []]. Qed.

Lemma title_go_empty b s : Py.title_go b s = "" ↔ s = "".
Proof.
  destruct s as [|c s]; cbn; [done|].
  destruct (Py.islower c); [done|]. by destruct (Py.isupper c).
Qed.

Lemma title_go_head b s : head_space (Py.title_go b s) = head_space s.
Proof.
  destruct s as [|c s]; cbn; [done|].
  destruct (Py.islower c); cbn; [destruct b; by rewrite ?isspace_upper|].
  destruct (Py.isupper c); cbn; [destruct b; by rewrite ?isspace_lower|done].
Qed.

Lemma last_space_cons c s :
  last_space (String c s) = if decide (s = "") then Py.isspace c else last_space s.
Proof. by destruct s. Qed.

Lemma title_go_last b s : last_space (Py.title_go b s) = last_space s.
Proof.
  revert b. induction s as [|c s IH]; intros b; [done|].
  rewrite last_space_cons. cbn [Py.title_go].
  destruct (Py.islower c); [|destruct (Py.isupper c)];
    rewrite last_space_cons, IH;
    (destruct (decide (s = "")) as [->|Hs];
     [ cbn; destruct b; by rewrite ?isspace_upper, ?isspace_lower
     | rewrite decide_False; [done|by rewrite title_go_empty] ]).
Qed.

Lemma title_trimmed s : trimmed s → trimmed (Py.title s).
Proof.
  rewrite !trimmed_iff. unfold Py.title.
  by rewrite title_go_head, title_go_last.
Qed.

Section unfolding.

#[local] Arguments Py.startswith : simpl nomatch.
#[local] Arguments Py.slice_from : simpl nomatch.

(** [s.replace(old, new)], one occurrence at a time. *)
Lemma replace_go_skip old new k s :
  Py.replace_go old new k s = Py.replace_go old new 0 (Py.slice_from k s).
Proof.
  revert s. induction k as [|k IH]; intros [|c s]; cbn; try done.
Qed.

Lemma startswith_app p s :
  Py.startswith p s = true → s = p +:+ Py.slice_from (String.length p) s.
Proof.
  revert s. induction p as [|a p IH]; intros [|b s]; try done.
  change (Py.startswith (String a p) (String b s))
    with (if decide (a = b) then Py.startswith p s else false).
  destruct (decide (a = b)) as [->|]; [|done].
  intros Hs.
  change (String b s = String b (p +:+ Py.slice_from (String.length p) s)).
  f_equal. by apply IH.
Qed.

Lemma replace_match old new s :
  old ≠ "" → Py.startswith old s = true →
  Py.replace old new s =
    new +:+ Py.replace old new (Py.slice_from (String.length old) s).
Proof.
  intros Hold Hs. unfold Py.replace. destruct s as [|c s].
  - by destruct old.
  - cbn [Py.replace_go]. rewrite Hs. f_equal. rewrite replace_go_skip.
    destruct old as [|a old]; [done|]. cbn. by rewrite Nat.sub_0_r.
Qed.

Lemma replace_no_match old new c s :
  Py.startswith old (String c s) = false →
  Py.replace old new (String c s) = String c (Py.replace old new s).
Proof. intros Hs. unfold Py.replace. cbn [Py.replace_go]. by rewrite Hs. Qed.

Lemma length_slice_from k s :
  String.length (Py.slice_from k s) = String.length s - k.
Proof.
  revert s. induction k as [|k IH]; intros [|c s]; cbn; done.
Qed.

End unfolding.

Lemma append_empty (s t : string) : s +:+ t = "" ↔ s = "" ∧ t = "".
Proof. destruct s; cbn; naive_solver. Qed.

Lemma last_space_app (s t : string) :
  last_space (s +:+ t) = if decide (t = "") then last_space s else last_space t.
Proof.
  induction s as [|c s IH].
  - cbn. by destruct t.
  - change (String c s +:+ t) with (String c (s +:+ t)).
    rewrite !last_space_cons, IH.
    destruct (decide (t = "")) as [->|Ht].
    + destruct (decide (s = "")) as [->|Hs]; [done|].
      rewrite decide_False; [done|]. rewrite append_empty. naive_solver.
    + rewrite decide_False; [done|]. rewrite append_empty. naive_solver.
Qed.

Section replace.

Context (old new : string).
Context (Hold : old ≠ "") (Hnew : new ≠ "").
Context (Hhead : head_space new = head_space old).
Context (Hlast : last_space new = last_space old).

Lemma replace_empty s : Py.replace old new s = "" ↔ s = "".
Proof.
  destruct s as [|c s]; [done|].
  destruct (Py.startswith old (String c s)) eqn:Hs.
  - rewrite replace_match, append_empty by done. naive_solver.
  - by rewrite replace_no_match.
Qed.

Lemma replace_head s : head_space (Py.replace old new s) = head_space s.
Proof.
  destruct s as [|c s]; [done|].
  destruct (Py.startswith old (String c s)) eqn:Hs.
  - rewrite replace_match by done.
    rewrite (startswith_app old (String c s) Hs) at 2.
    destruct new as [|a n]; [done|]. destruct old as [|b o]; [done|].
    exact Hhead.
  - by rewrite replace_no_match.
Qed.

Lemma replace_last s : last_space (Py.replace old new s) = last_space s.
Proof.
  revert s. cut (∀ n s, String.length s < n →
    last_space (Py.replace old new s) = last_space s); [by eauto|].
  induction n as [|n IH]; intros s Hn; [lia|].
  destruct s as [|c s]; [done|]. cbn in Hn.
  destruct (Py.startswith old (String c s)) eqn:Hs.
  - rewrite replace_match by done.
    rewrite (startswith_app old (String c s) Hs) at 2.
    rewrite !last_space_app.
    destruct (decide (Py.slice_from (String.length old) (String c s) = ""))
      as [Hrest|Hrest].
    + rewrite Hrest. by rewrite decide_True.
    + rewrite decide_False by (by rewrite replace_empty).
      apply IH. rewrite length_slice_from.
      destruct old; [done|]. cbn. lia.
  - rewrite replace_no_match by done. rewrite !last_space_cons.
    destruct (decide (s = "")) as [->|Hne]; [done|].
    rewrite decide_False by (by rewrite replace_empty).
    apply IH. cbn. lia.
Qed.

Lemma replace_trimmed s : trimmed s → trimmed (Py.replace old new s).
Proof. rewrite !trimmed_iff. by rewrite replace_head, replace_last. Qed.

End replace.

Lemma fix_title_is_trimmed s : trimmed (fix_title s).
Proof.
  unfold fix_title.
  repeat (apply replace_trimmed; [done..|]).
  apply title_trimmed, strip_trimmed.
Qed.

Lemma institution_title_is_trimmed s : trimmed (institution_title s).
Proof.
  unfold institution_title.
  apply replace_trimmed; [done..|]. apply title_trimmed, strip_trimmed.
Qed.

(** ** An iteration, by the class of its line *)

Lemma step_classify debug line s :
  step debug line s =
  match classify line with
  | Typed t => branch_of debug t line (enter s)
  | Untyped => unrecognized_line line (enter s)
  | Tokenless => Raise IndexError (enter s)
  end.
Proof.
  unfold step, classify. run_M.
  destruct (Py.split line) as [|token rest] eqn:Hsplit; [done|].
  assert (first_token line = token) as Htok.
  { unfold first_token. by rewrite Hsplit. }
  destruct (Py.isdecimal token); [by cbn; rewrite Htok|].
  destruct (decide (token = "M/A")); [done|].
  destruct (decide (token = "M/I")); [done|].
  destruct (decide (token = "FOR")); [done|].
  destruct (Py.startswith "CERT" token); [done|].
  destruct (decide (token = "PROGRAM")); [|done].
  destruct rest as [|token1 rest]; [done|].
  destruct (decide (token1 = "FINANCIAL")); [done|].
  by destruct (decide (token1 = "PROFESSIONAL")).
Qed.

Lemma preserves_step_class (I : State → Prop) debug line :
  (∀ s, I s → I (enter s)) →
  match classify line with
  | Typed t => preserves I (branch_of debug t line)
  | Untyped => preserves I (unrecognized_line line)
  | Tokenless => True
  end →
  preserves I (step debug line).
Proof.
  intros He Hb s Hs. rewrite step_classify.
  destruct (classify line) as [t| |]; [by apply Hb, He..|by apply He].
Qed.

(** Unfolding the branches down to their assignments and prints. *)
Ltac unfold_branches :=
  unfold branch_of, program_line, multiple_awards_line,
    multiple_institutions_line, for_award_line, certificate_etc_line,
    financial_aid_line, accreditation_line, generate_keys, merge,
    unrecognized_line;
  cbv zeta.

(** ** Only accreditation lines change [records] *)

Lemma branch_keeps_records debug t line recs :
  t ≠ line_type.accreditation →
  preserves (λ s, records s = recs) (branch_of debug t line).
Proof.
  intros Ht. destruct t; try done; unfold_branches;
    preserves_walk ltac:(idtac; untouched).
Qed.

(** X1.  Whatever the line, unless it is an accreditation line, [records] is
    after the iteration what it was before it, however the iteration
    ends. *)
Theorem records_change_at_accreditation_lines_only debug line s :
  classify line ≠ Typed line_type.accreditation →
  records (final_state (step debug line s)) = records s.
Proof.
  intros Hline.
  apply (preserves_step_class (λ s', records s' = records s)); [done| |done].
  destruct (classify line) as [t| |]; [|unfold_branches..|done].
  - apply branch_keeps_records. congruence.
  - preserves_walk ltac:(idtac; untouched).
Qed.

(** ** The line counter *)

Lemma branch_keeps_line_num debug t line n :
  preserves (λ s, line_num s = n) (branch_of debug t line).
Proof.
  destruct t; unfold_branches; preserves_walk ltac:(idtac; untouched).
Qed.

Lemma step_line_num debug line s :
  line_num (final_state (step debug line s)) = line_num s + 1.
Proof.
  rewrite step_classify. destruct (classify line) as [t| |]; [|done..].
  by apply (branch_keeps_line_num debug t line (line_num s + 1) (enter s)).
Qed.

Lemma loop_line_num debug lines s :
  line_num s ≤ line_num (final_state (loop debug lines s)) ∧
  line_num (final_state (loop debug lines s)) ≤ line_num s + length lines ∧
  (reaches_emitter (loop debug lines s) = true →
   line_num (final_state (loop debug lines s)) = line_num s + length lines) ∧
  (reaches_emitter (loop debug lines s) = false →
   line_num s < line_num (final_state (loop debug lines s))) ∧
  loop debug
    (take (line_num (final_state (loop debug lines s)) - line_num s) lines) s
    = loop debug lines s.
Proof.
  revert s. induction lines as [|line lines IH]; intros s.
  { cbn. split_and!; try done; try lia. by rewrite take_nil. }
  cbn [loop length]. unfold mbind, M_bind.
  pose proof (step_line_num debug line s) as Hstep.
  destruct (step debug line s) as [[] s1|s1|e s1] eqn:Hs; cbn in Hstep.
  - destruct (IH s1) as (H1 & H2 & H3 & H4 & H5). split_and!; try lia.
    + intros H. specialize (H3 H). lia.
    + replace (line_num (final_state (loop debug lines s1)) - line_num s)
        with (S (line_num (final_state (loop debug lines s1)) - line_num s1))
        by lia.
      cbn [take loop]. unfold mbind, M_bind. by rewrite Hs.
  - cbn. split_and!; try done; try lia.
    replace (line_num s1 - line_num s) with 1 by lia.
    cbn. unfold mbind, M_bind. by rewrite Hs.
  - cbn. split_and!; try done; try lia.
    replace (line_num s1 - line_num s) with 1 by lia.
    cbn. unfold mbind, M_bind. by rewrite Hs.
Qed.

(** X2.  [line_num] counts the lines read.  When the loop ends, however it
    ends, [line_num] is the number of lines the loop has read: all of them
    when it ends normally, and otherwise the lines up to the one at which
    the run stopped, so that the run on these lines alone is the same
    run. *)
Theorem line_num_counts_the_lines_read debug lines :
  line_num (final_state (run debug lines)) ≤ length lines ∧
  run debug (take (line_num (final_state (run debug lines))) lines)
    = run debug lines ∧
  (reaches_emitter (run debug lines) = true →
   line_num (final_state (run debug lines)) = length lines) ∧
  (reaches_emitter (run debug lines) = false →
   1 ≤ line_num (final_state (run debug lines))).
Proof.
  destruct (loop_line_num debug lines initial_state) as (_ & H2 & H3 & H4 & H5).
  unfold run. cbn in *. rewrite Nat.sub_0_r in H5. by split_and!.
Qed.

(** ** Program codes and duplicates *)

Lemma program_line_codes debug token line s :
  ∃ s', program_line debug token line s = Ok () s' ∧
    program_codes s' = {[token]} ∪ program_codes s ∧
    num_dupes s' =
      (if decide (token ∈ program_codes s) then num_dupes s + 1
       else num_dupes s).
Proof.
  unfold program_line. run_M.
  destruct (bool_decide (prev_type s ≠ _)); cbn;
    (destruct (decide (token ∈ program_codes s));
     [rewrite bool_decide_true by done|rewrite bool_decide_false by done]);
    destruct debug; cbn; eexists; (split; [reflexivity|done]).
Qed.






(** ** The sequence check *)

Lemma print_keeps_sequence flagged t prev ch m :
  is_unexpected (ch, m) = false →
  preserves (sequence_is flagged t prev) (print ch m).
Proof.
  intros Hm s (Hf & Ht & Hp). split_and!; [|done..].
  unfold print, modify. cbn [final_state output set_output].
  rewrite filter_app, filter_cons.
  rewrite decide_False by (by apply Is_true_false_2).
  by rewrite filter_nil, app_nil_r.
Qed.

(** The leaf for the statements after the check: assignments to other
    names, and prints of other messages. *)
Ltac after_check :=
  match goal with
  | |- preserves _ (modify _) => apply preserves_modify; intros ? Hs; exact Hs
  | |- preserves _ (print _ _) => by apply print_keeps_sequence
  end.

(** Every branch starts in the same way: it sets [this_type], tests
    [prev_type] and prints its message when the test fails. *)
Lemma checked_branch t (c : option line_type.t → bool) ch
    (rest : option line_type.t → nat → M unit) s :
  (∀ prev n flagged,
     preserves (sequence_is flagged t (prev_type s)) (rest prev n)) →
  sequence_is
    (filter is_unexpected (output s) ++
       if c (prev_type s) then [(ch, Unexpected (line_num s) t)] else [])
    t (prev_type s)
    (final_state
       ((modify (set_this_type t);;
         prev ← gets prev_type;
         n ← gets line_num;
         when (c prev) (print ch (Unexpected n t));;
         rest prev n) s)).
Proof.
  intros Hrest. unfold mbind, M_bind, modify, gets. cbv beta iota.
  cbn [prev_type line_num set_this_type].
  destruct (c (prev_type s)); cbn [when].
  - unfold print, modify. cbv beta iota. apply Hrest. split_and!; [|done..].
    cbn. by rewrite filter_app.
  - unfold mret, M_ret. cbv beta iota. apply Hrest.
    split_and!; [|done..]. cbn. by rewrite app_nil_r.
Qed.

Lemma branch_checks_sequence debug t line s :
  sequence_is
    (filter is_unexpected (output s) ++
       if expected (prev_type s) t then []
       else [(unexpected_channel t, Unexpected (line_num s) t)])
    t (prev_type s)
    (final_state (branch_of debug t line s)).
Proof.
  assert (∀ (c : option line_type.t → bool) ch (rest : _ → _ → M unit),
    c (prev_type s) = negb (expected (prev_type s) t) →
    ch = unexpected_channel t →
    (∀ prev n flagged,
       preserves (sequence_is flagged t (prev_type s)) (rest prev n)) →
    sequence_is
      (filter is_unexpected (output s) ++
         if expected (prev_type s) t then []
         else [(unexpected_channel t, Unexpected (line_num s) t)])
      t (prev_type s)
      (final_state
         ((modify (set_this_type t);;
           prev ← gets prev_type;
           n ← gets line_num;
           when (c prev) (print ch (Unexpected n t));;
           rest prev n) s))) as Hgen.
  { intros c ch rest Hc -> Hrest.
    pose proof (checked_branch t c (unexpected_channel t) rest s Hrest) as H.
    rewrite Hc in H. by destruct (expected (prev_type s) t). }
  destruct t; unfold branch_of.
  - unfold program_line. cbv zeta.
    apply (Hgen (λ prev, bool_decide (prev ≠ Some line_type.accreditation))
             Stdout (λ prev n, _)); [|done|].
    + cbn. by rewrite bool_decide_not.
    + intros. unfold_branches. preserves_walk ltac:(idtac; after_check).
  - unfold multiple_awards_line. cbv zeta.
    apply (Hgen (λ prev, bool_decide (prev ≠ Some line_type.program) &&
                        bool_decide (prev ≠ Some line_type.multiple_institutions))
             Stderr (λ prev n, _)); [|done|].
    + cbn. by rewrite !bool_decide_not, negb_orb.
    + intros. unfold_branches. preserves_walk ltac:(idtac; after_check).
  - unfold multiple_institutions_line. cbv zeta.
    apply (Hgen (λ prev, bool_decide (prev ≠ Some line_type.program) &&
                        bool_decide (prev ≠ Some line_type.multiple_awards))
             Stderr (λ prev n, _)); [|done|].
    + cbn. by rewrite !bool_decide_not, negb_orb.
    + intros. unfold_branches. preserves_walk ltac:(idtac; after_check).
  - unfold for_award_line.
    apply (Hgen (λ prev, bool_decide (prev ≠ Some line_type.program) &&
                        bool_decide (prev ≠ Some line_type.multiple_awards) &&
                        bool_decide (prev ≠ Some line_type.multiple_institutions) &&
                        bool_decide (prev ≠ Some line_type.accreditation))
             Stderr (λ prev n, _)); [|done|].
    + cbn. by rewrite !bool_decide_not, !negb_orb.
    + intros. unfold_branches. preserves_walk ltac:(idtac; after_check).
  - unfold certificate_etc_line. cbv zeta.
    apply (Hgen (λ prev, bool_decide (prev ≠ Some line_type.for_award))
             Stderr (λ prev n, _)); [|done|].
    + cbn. by rewrite bool_decide_not.
    + intros. unfold_branches. preserves_walk ltac:(idtac; after_check).
  - unfold financial_aid_line. cbv zeta.
    apply (Hgen (λ prev, bool_decide (prev ≠ Some line_type.certificate_etc) &&
                        bool_decide (prev ≠ Some line_type.for_award))
             Stderr (λ prev n, _)); [|done|].
    + cbn. by rewrite !bool_decide_not, negb_orb.
    + intros. unfold_branches. preserves_walk ltac:(idtac; after_check).
  - unfold accreditation_line. cbv zeta.
    apply (Hgen (λ prev, bool_decide (prev ≠ Some line_type.financial_aid))
             Stderr (λ prev n, _)); [|done|].
    + cbn. by rewrite bool_decide_not.
    + intros. unfold_branches. preserves_walk ltac:(idtac; after_check).
Qed.

(** X4.  The sequence check of a line of type [t].  After the iteration,
    however it ends, [this_type] is [t] and [prev_type] is the type of the
    line before; and the iteration has printed one "unexpected" message,
    with the number of the line and on the channel of the branch, when [t]
    is not expected after the type of the line before, and none when it
    is. *)
Theorem unexpected_iff_out_of_sequence debug line t s :
  classify line = Typed t →
  this_type (final_state (step debug line s)) = t ∧
  prev_type (final_state (step debug line s)) = Some (this_type s) ∧
  filter is_unexpected (printed (step debug line s)) =
    filter is_unexpected (output s) ++
      (if expected (Some (this_type s)) t then []
       else [(unexpected_channel t, Unexpected (line_num s + 1) t)]).
Proof.
  intros Hline. rewrite step_classify, Hline.
  destruct (branch_checks_sequence debug t line (enter s)) as (Hf & Ht & Hp).
  split_and!; [done|done|].
  by destruct (branch_of debug t line (enter s)).
Qed.

(** ** Lines of no type *)

Lemma unrecognized_step debug line s :
  classify line = Untyped →
  step debug line s =
    Ok () (set_output
             (output s ++ [(Stderr, Unrecognized (line_num s + 1) line)])
             (enter s)).
Proof. intros Hline. by rewrite step_classify, Hline. Qed.

(** X5.  Lines of no type are reported and skipped.  The loop over such lines
    ends normally; each line is reported on standard error with its number;
    and apart from the line counter and [prev_type] no name changes: in
    particular [this_type] stays the type of the last line that had one, so
    that the line after is checked against that type. *)
Theorem unrecognized_lines_are_reported_and_skipped debug skipped s :
  Forall (λ line, classify line = Untyped) skipped →
  ∃ s',
    loop debug skipped s = Ok () s' ∧
    output s' =
      output s ++
      imap (λ i line, (Stderr, Unrecognized (line_num s + i + 1) line)) skipped ∧
    line_num s' = line_num s + length skipped ∧
    parser_names s' = parser_names s.
Proof.
  intros Hskipped. revert s.
  induction Hskipped as [|line skipped Hline _ IH]; intros s.
  { exists s. cbn. by rewrite app_nil_r, Nat.add_0_r. }
  cbn [loop]. unfold mbind, M_bind. rewrite unrecognized_step by done.
  destruct (IH (set_output
                  (output s ++ [(Stderr, Unrecognized (line_num s + 1) line)])
                  (enter s))) as (s' & -> & Hout & Hn & Hnames).
  exists s'. split; [done|]. cbn in Hout, Hn, Hnames. split_and!.
  - rewrite Hout, <- (assoc_L (++)). f_equal. cbn [imap app].
    rewrite Nat.add_0_r. f_equal.
    apply imap_ext. intros i l _. cbn. do 2 f_equal. lia.
  - rewrite Hn. cbn. lia.
  - done.
Qed.

(** ** The message that is never printed *)

Lemma printed_final {A} (o : outcome A) : printed o = output (final_state o).
Proof. by destruct o. Qed.

Lemma print_keeps_absent (x : channel * message) ch m :
  (ch, m) ≠ x → preserves (λ s, x ∉ output s) (print ch m).
Proof.
  intros Hne s Hs. unfold print, modify. cbn [final_state output set_output].
  rewrite elem_of_app, list_elem_of_singleton. naive_solver.
Qed.

Ltac other_print :=
  match goal with
  | |- preserves _ (modify _) => apply preserves_modify; intros ? Hs; exact Hs
  | |- preserves _ (print _ _) => by apply print_keeps_absent
  end.

(** X6.  The message about a for_award line whose award the program does not
    have is printed in no run: formatting it reads the name [awards], which
    nothing binds. *)
Theorem unknown_award_message_is_never_printed debug lines ch n award aw :
  (ch, ForAwardNotInAwards n award aw) ∉ printed (run debug lines).
Proof.
  rewrite printed_final. unfold run.
  apply (preserves_loop (λ s, (ch, ForAwardNotInAwards n award aw) ∉ output s));
    [|by apply not_elem_of_nil].
  intros line. apply preserves_step_class; [done|].
  destruct (classify line) as [t| |]; [destruct t|..]; try done;
    unfold_branches; preserves_walk ltac:(idtac; other_print).
Qed.

(** ** Where a run can end by [exit()] *)

Section never_exits.

Lemma never_exits_ret {A} (a : A) : never_exits (mret a).
Proof. by intros s s'. Qed.

Lemma never_exits_bind {A B} (m : M A) (f : A → M B) :
  never_exits m → (∀ a, never_exits (f a)) → never_exits (m ≫= f).
Proof.
  intros Hm Hf s s'. unfold mbind, M_bind. specialize (Hm s).
  destruct (m s); [apply Hf|by destruct (Hm s0)|done].
Qed.

Lemma never_exits_gets {A} (f : State → A) : never_exits (gets f).
Proof. by intros s s'. Qed.

Lemma never_exits_modify f : never_exits (modify f).
Proof. by intros s s'. Qed.

Lemma never_exits_print ch m : never_exits (print ch m).
Proof. by intros s s'. Qed.

Lemma never_exits_read {A} name (f : State → option A) :
  never_exits (read name f).
Proof. intros s s'. unfold read. by destruct (f s). Qed.

Lemma never_exits_raise {A} e : never_exits (raise (A:=A) e).
Proof. by intros s s'. Qed.

Lemma never_exits_when b (m : M unit) : never_exits m → never_exits (when b m).
Proof. intros Hm. destruct b; [done|]. apply never_exits_ret. Qed.

Lemma never_exits_for_each {A} (xs : list A) (f : A → M unit) :
  (∀ x, never_exits (f x)) → never_exits (for_each xs f).
Proof.
  intros Hf. induction xs as [|x xs IH]; cbn.
  - apply never_exits_ret.
  - apply never_exits_bind; [apply Hf | by intros _].
Qed.

(** The [exit()] of the for_award branch comes after the read of the
    unbound [awards]. *)
Lemma never_exits_read_awards {B} (f : gset string → M B) :
  never_exits (read "awards" awards ≫= f).
Proof. by intros s s'. Qed.

End never_exits.

Ltac never_exits_walk :=
  repeat match goal with
  | |- never_exits (read "awards" awards ≫= _) => apply never_exits_read_awards
  | |- never_exits (_ ≫= _) => apply never_exits_bind; [|intros ?]
  | |- never_exits (when _ _) => apply never_exits_when
  | |- never_exits (for_each _ _) => apply never_exits_for_each; intros ?
  | |- never_exits (gets _) => apply never_exits_gets
  | |- never_exits (modify _) => apply never_exits_modify
  | |- never_exits (print _ _) => apply never_exits_print
  | |- never_exits (read _ _) => apply never_exits_read
  | |- never_exits (raise _) => apply never_exits_raise
  | |- never_exits (mret _) => apply never_exits_ret
  | |- never_exits (match ?x with _ => _ end) => destruct x eqn:?
  end.

Lemma branch_never_exits debug t line :
  t ≠ line_type.multiple_institutions → never_exits (branch_of debug t line).
Proof.
  intros Ht. destruct t; try done; unfold_branches; never_exits_walk.
Qed.

Lemma multiple_institutions_line_exit debug line s s' :
  multiple_institutions_line debug line s = Exit s' →
  ∃ pv, program_vars s = Some pv ∧ minst_line pv = true ∧
        last (output s') = Some (Stdout, SecondMI (line_num s) (program_code pv)) ∧
        line_num s' = line_num s ∧ records s' = records s ∧
        this_type s' = line_type.multiple_institutions.
Proof.
  unfold multiple_institutions_line.
  generalize (Py.strip (Py.slice 52 59 line)) (Py.strip (Py.slice 63 76 line))
    (institution_title (Py.slice_from 76 line)).
  intros hg aw inst. cbv zeta.
  unfold mbind, M_bind, modify, gets, mret, M_ret, read. cbv beta iota.
  destruct (when _ _ _) as [[] s0| |] eqn:Hw; try done.
  2: { unfold when, print, modify, mret, M_ret in Hw. by destruct (_ && _). }
  assert (program_vars s0 = program_vars s ∧ line_num s0 = line_num s ∧
          records s0 = records s ∧
          this_type s0 = line_type.multiple_institutions) as (Hpv & Hn & Hr & Ht).
  { unfold when, print, modify, mret, M_ret in Hw.
    by destruct (_ && _); simplify_eq. }
  destruct (truthy _); cbn [when]; [|done].
  cbn [program_vars set_minst_award set_minst_hegis].
  destruct (program_vars s0) as [pv|] eqn:Hpv0; [|done].
  destruct (minst_line pv) eqn:Hline; cbn [when].
  - unfold print, modify, exit. intros [= <-]. exists pv.
    cbn. rewrite last_snoc. by rewrite <- Hpv, Hn.
  - unfold mret, M_ret. cbv beta iota.
    destruct debug; cbn [when]; unfold print, modify; done.
Qed.

Lemma step_exit debug line s s' :
  step debug line s = Exit s' →
  classify line = Typed line_type.multiple_institutions ∧
  ∃ code, last (output s') = Some (Stdout, SecondMI (line_num s') code) ∧
          line_num s' = line_num s + 1 ∧ records s' = records s ∧
          this_type s' = line_type.multiple_institutions.
Proof.
  rewrite step_classify. destruct (classify line) as [t| |]; [|done..].
  destruct (decide (t = line_type.multiple_institutions)) as [->|Ht].
  - intros (pv & _ & _ & Hlast & Hn & Hr & Ht)%multiple_institutions_line_exit.
    split; [done|]. exists (program_code pv). by rewrite Hn.
  - intros H. by destruct (branch_never_exits debug t line Ht (enter s) s').
Qed.

Lemma loop_exit debug lines s s' :
  loop debug lines s = Exit s' →
  ∃ line code,
    lines !! (line_num s' - line_num s - 1) = Some line ∧
    classify line = Typed line_type.multiple_institutions ∧
    last (output s') = Some (Stdout, SecondMI (line_num s') code) ∧
    this_type s' = line_type.multiple_institutions.
Proof.
  revert s. induction lines as [|line lines IH]; intros s; [done|].
  cbn [loop]. unfold mbind, M_bind.
  pose proof (step_line_num debug line s) as Hn.
  destruct (step debug line s) as [[] s1|s1|e s1] eqn:Hs; [| |done].
  - cbn in Hn. intros Hloop.
    destruct (loop_line_num debug lines s1) as (_ & _ & _ & Hlt & _).
    rewrite Hloop in Hlt. specialize (Hlt eq_refl). cbn in Hlt.
    destruct (IH s1 Hloop) as (l & code & Hl & ?). exists l, code.
    split; [|done].
    replace (line_num s' - line_num s - 1)
      with (S (line_num s' - line_num s1 - 1)) by lia.
    done.
  - intros [= ->]. apply step_exit in Hs as (Hc & code & Hlast & Hn' & _ & Ht).
    exists line, code.
    replace (line_num s' - line_num s - 1) with 0 by lia. done.
Qed.

(** X7.  A run ends by [exit()] at one place only, the second M/I line with an
    award: the line at which the run stopped is an M/I line, and the last
    thing printed is the message about it, with its number. *)
Theorem exit_only_at_a_second_MI_line debug lines s :
  run debug lines = Exit s →
  ∃ line code,
    lines !! (line_num s - 1) = Some line ∧
    classify line = Typed line_type.multiple_institutions ∧
    last (output s) = Some (Stdout, SecondMI (line_num s) code) ∧
    this_type s = line_type.multiple_institutions.
Proof.
  intros Hrun. unfold run in Hrun.
  destruct (loop_exit debug lines initial_state s Hrun)
    as (line & code & Hl & H).
  exists line, code. change (line_num initial_state) with 0 in Hl.
  by rewrite Nat.sub_0_r in Hl.
Qed.

(** ** What each branch extracts *)

Lemma classify_program line :
  classify line = Typed line_type.program →
  Py.isdecimal (first_token line) = true.
Proof.
  unfold classify, first_token.
  destruct (Py.split line) as [|token rest]; [done|]. cbn.
  destruct (Py.isdecimal token); [done|].
  repeat (case_decide; [done|]). destruct (Py.startswith _ _); [done|].
  case_decide; [|done]. destruct rest; [done|].
  repeat (case_decide; [done|]). done.
Qed.

Lemma program_line_runs debug token line s :
  ∃ s',
    program_line debug token line s = Ok () s' ∧
    program_vars s' = Some
      {| program_code := token;
         program_name := fix_title (Py.slice 10 52 line);
         program_hegis := Py.slice 52 59 line;
         program_award := Py.strip (Py.slice 63 76 line);
         program_institution := institution_title (Py.slice_from 76 line);
         maw_lines := ∅; maw_awards := ∅; minst_line := false |} ∧
    cert s' = Some Certs_etc_default ∧
    records s' = records s ∧ fin_aid s' = fin_aid s ∧
    for_award s' = for_award s ∧ minst_hegis s' = minst_hegis s ∧
    minst_award s' = minst_award s ∧
    minst_institution s' = minst_institution s.
Proof.
  unfold program_line. run_M.
  destruct (bool_decide (prev_type s ≠ _)); cbn;
    destruct (bool_decide (token ∈ program_codes s)); cbn;
    destruct debug; cbn; eexists; (split; [reflexivity|done]).
Qed.


Lemma multiple_awards_line_runs debug line s pv :
  program_vars s = Some pv →
  let m := mkMAW_line (Py.strip (fix_title (Py.slice 10 52 line)))
             (Py.strip (Py.slice 52 59 line))
             (Py.strip (Py.slice 63 76 line))
             (institution_title (Py.slice_from 76 line)) in
  ∃ s',
    multiple_awards_line debug line s = Ok () s' ∧
    program_vars s' = Some
      {| program_code := program_code pv; program_name := program_name pv;
         program_hegis := program_hegis pv; program_award := program_award pv;
         program_institution := program_institution pv;
         maw_lines := {[m]} ∪ maw_lines pv;
         maw_awards := {[maw_award m]} ∪ maw_awards pv;
         minst_line := minst_line pv |} ∧
    (m ∈ maw_lines pv →
     (Stderr, DuplicateMA (line_num s) m (program_code pv)) ∈ output s') ∧
    records s' = records s ∧ cert s' = cert s ∧ fin_aid s' = fin_aid s ∧
    for_award s' = for_award s ∧ minst_hegis s' = minst_hegis s ∧
    minst_award s' = minst_award s ∧
    minst_institution s' = minst_institution s ∧
    program_codes s' = program_codes s.
Proof.
  intros Hpv m. unfold multiple_awards_line. cbv zeta. fold m. clearbody m.
  run_M.
  destruct (_ && _); cbn; rewrite Hpv; cbn;
    (destruct (decide (m ∈ maw_lines pv));
     [rewrite bool_decide_true by done|rewrite bool_decide_false by done]);
    destruct debug; cbn; eexists; (split; [reflexivity|]); cbn;
    (split; [done|]); (split; [|done]); try done; intros _;
    rewrite ?elem_of_app, !list_elem_of_singleton; auto.
Qed.

(** X9.  An M/A line read when a program has been started is recorded, whatever
    the type of the line before (the sequence check only prints).  The
    iteration ends normally; the entry made of the four fields of the line,
    each stripped, is added to the multi-award set and its award to the set
    of awards, the other names of the program staying as they are; a line
    whose entry is in the set already is reported as a duplicate on
    standard error and leaves the set as it is.  The [strip()] applied to the
    result of [fix_title] changes nothing. *)
Theorem MA_line_is_recorded debug line s pv :
  classify line = Typed line_type.multiple_awards →
  program_vars s = Some pv →
  ∃ s' pv' m,
    step debug line s = Ok () s' ∧ program_vars s' = Some pv' ∧
    m = mkMAW_line (fix_title (Py.slice 10 52 line))
          (Py.strip (Py.slice 52 59 line)) (Py.strip (Py.slice 63 76 line))
          (institution_title (Py.slice_from 76 line)) ∧
    trimmed (maw_name m) ∧ trimmed (maw_hegis m) ∧ trimmed (maw_award m) ∧
    trimmed (maw_institution m) ∧
    maw_lines pv' = {[m]} ∪ maw_lines pv ∧
    maw_awards pv' = {[maw_award m]} ∪ maw_awards pv ∧
    (m ∈ maw_lines pv →
     maw_lines pv' = maw_lines pv ∧
     (Stderr, DuplicateMA (line_num s + 1) m (program_code pv)) ∈ output s') ∧
    program_code pv' = program_code pv ∧ program_name pv' = program_name pv ∧
    program_hegis pv' = program_hegis pv ∧
    program_award pv' = program_award pv ∧
    program_institution pv' = program_institution pv ∧
    minst_line pv' = minst_line pv ∧
    records s' = records s.
Proof.
  intros Hline Hpv. rewrite step_classify, Hline. cbn [branch_of].
  destruct (multiple_awards_line_runs debug line (enter s) pv Hpv)
    as (s' & -> & Hpv' & Hdup & Hrecs & _).
  cbv zeta in Hpv', Hdup.
  pose proof (fix_title_is_trimmed (Py.slice 10 52 line)) as Hname.
  pose proof (strip_trimmed (Py.slice 52 59 line)) as Hhegis.
  pose proof (strip_trimmed (Py.slice 63 76 line)) as Haward.
  pose proof (institution_title_is_trimmed (Py.slice_from 76 line)) as Hinst.
  revert Hpv' Hdup Hname Hhegis Haward Hinst.
  generalize (fix_title (Py.slice 10 52 line)) (Py.strip (Py.slice 52 59 line))
    (Py.strip (Py.slice 63 76 line)) (institution_title (Py.slice_from 76 line)).
  intros name hegis award inst Hpv' Hdup Hname Hhegis Haward Hinst.
  unfold trimmed in Hname. rewrite Hname in Hpv', Hdup.
  eexists s', _, _. split; [done|]. split; [exact Hpv'|].
  split; [reflexivity|]. cbn.
  split_and!; try done.
  intros Hin. split; [set_solver|by apply Hdup].
Qed.

(** ** The certificate line *)

Lemma certificate_etc_line_runs line s :
  ∃ s',
    certificate_etc_line line s = Ok () s' ∧
    cert s' = Some
      (if Py.startswith "NONE" (Py.strip (Py.slice_from 47 line))
       then Certs_etc_default
       else
         {| certs_name :=
              Some (Py.strip (Py.slice 0 18 (Py.strip (Py.slice_from 47 line))));
            certs_type :=
              Some (Py.strip (Py.slice 18 28 (Py.strip (Py.slice_from 47 line))));
            certs_date :=
              Some (Py.strip
                      (Py.slice_from 28 (Py.strip (Py.slice_from 47 line)))) |}) ∧
    records s' = records s ∧ program_vars s' = program_vars s ∧
    fin_aid s' = fin_aid s ∧ for_award s' = for_award s.
Proof.
  unfold certificate_etc_line. cbv zeta.
  generalize (Py.strip (Py.slice_from 47 line)). intros info. run_M.
  destruct (bool_decide _); cbn; destruct (Py.startswith "NONE" info); cbn;
    eexists; (split; [reflexivity|done]).
Qed.

(** X10.  A certificate line ends normally in whatever state it is read, and
    binds [cert]: to the default, all [None], when the text from column 47
    on, stripped, starts with NONE; and otherwise to three strings, each
    stripped.  When there is nothing but blanks from column 47 on, the three
    strings are empty: [cert] is then three empty strings, not the
    default. *)
Theorem certificate_line_fields debug line s :
  classify line = Typed line_type.certificate_etc →
  ∃ s' c,
    step debug line s = Ok () s' ∧ cert s' = Some c ∧
    (Py.startswith "NONE" (Py.strip (Py.slice_from 47 line)) = true →
     c = Certs_etc_default) ∧
    (Py.startswith "NONE" (Py.strip (Py.slice_from 47 line)) = false →
     ∃ n t d, c = mkCerts_etc (Some n) (Some t) (Some d) ∧
              trimmed n ∧ trimmed t ∧ trimmed d) ∧
    (blank (Py.slice_from 47 line) = true →
     c = mkCerts_etc (Some "") (Some "") (Some "")) ∧
    records s' = records s ∧ program_vars s' = program_vars s ∧
    fin_aid s' = fin_aid s ∧ for_award s' = for_award s.
Proof.
  intros Hline. rewrite step_classify, Hline. cbn [branch_of].
  destruct (certificate_etc_line_runs line (enter s))
    as (s' & -> & Hcert & ? & ? & ? & ?).
  eexists s', _. split; [done|]. split; [exact Hcert|].
  split_and!; try done.
  - by intros ->.
  - intros ->. eexists _, _, _. split; [done|].
    split_and!; apply strip_trimmed.
  - intros Hblank. by rewrite (blank_strip _ Hblank).
Qed.

(** ** The for_award line *)


(** ** The fields fit their columns *)

Lemma length_lstrip s : String.length (Py.lstrip s) ≤ String.length s.
Proof.
  induction s as [|c s IH]; cbn; [done|]. destruct (Py.isspace c); cbn; lia.
Qed.

Lemma length_rstrip s : String.length (Py.rstrip s) ≤ String.length s.
Proof.
  induction s as [|c s IH]; cbn; [done|].
  destruct (Py.rstrip s); [destruct (Py.isspace c)|]; cbn in *; lia.
Qed.

Lemma length_strip s : String.length (Py.strip s) ≤ String.length s.
Proof.
  unfold Py.strip. etrans; [apply length_rstrip|apply length_lstrip].
Qed.

Lemma length_slice_to n s : String.length (Py.slice_to n s) ≤ n.
Proof.
  revert s. induction n as [|n IH]; intros [|c s]; cbn; try lia.
  specialize (IH s). lia.
Qed.

Lemma length_slice a b s : String.length (Py.slice a b s) ≤ b - a.
Proof. unfold Py.slice. apply length_slice_to. Qed.

Lemma length_hegis_field line : String.length (Py.slice 52 59 line) ≤ 7.
Proof. exact (length_slice 52 59 line). Qed.

Lemma length_stripped_hegis_field line :
  String.length (Py.strip (Py.slice 52 59 line)) ≤ 7.
Proof. etrans; [apply length_strip|apply length_hegis_field]. Qed.

Lemma length_stripped_award_field line :
  String.length (Py.strip (Py.slice 63 76 line)) ≤ 13.
Proof. etrans; [apply length_strip|exact (length_slice 63 76 line)]. Qed.

(** ** Collapsing runs of spaces keeps a string stripped *)

Lemma sub_spaces_go_nonempty b s :
  last_space s = false → s ≠ "" → Py.sub_spaces_go b s ≠ "".
Proof.
  revert b. induction s as [|c s IH]; intros b Hl Hne; [done|].
  rewrite last_space_cons in Hl. cbn [Py.sub_spaces_go].
  destruct (decide (s = "")) as [->|Hs].
  - destruct (decide (c = Py.space)) as [->|]; [done|done].
  - destruct (decide (c = Py.space)); [destruct b; [by apply IH|done]|done].
Qed.

Lemma sub_spaces_go_head b s :
  head_space s = false → head_space (Py.sub_spaces_go b s) = false.
Proof.
  destruct s as [|c s]; [done|]. intros Hc. cbn [Py.sub_spaces_go].
  destruct (decide (c = Py.space)) as [->|]; [by vm_compute in Hc|]. exact Hc.
Qed.

Lemma sub_spaces_go_last b s :
  last_space s = false → last_space (Py.sub_spaces_go b s) = false.
Proof.
  revert b. induction s as [|c s IH]; intros b Hl; [done|].
  rewrite last_space_cons in Hl. cbn [Py.sub_spaces_go].
  destruct (decide (s = "")) as [->|Hs].
  - destruct (decide (c = Py.space)) as [->|]; [by vm_compute in Hl|].
    exact Hl.
  - destruct (decide (c = Py.space)); [destruct b|];
      rewrite ?last_space_cons, ?decide_False
        by (by apply sub_spaces_go_nonempty);
      by apply IH.
Qed.

Lemma sub_spaces_trimmed s : trimmed s → trimmed (Py.sub_spaces s).
Proof.
  rewrite !trimmed_iff. unfold Py.sub_spaces. intros [Hh Hl].
  split; [by apply sub_spaces_go_head|by apply sub_spaces_go_last].
Qed.

(** ** Well-formedness is kept by every branch *)

Lemma key_well_formed_mono codes codes' k :
  codes ⊆ codes' → key_well_formed codes k → key_well_formed codes' k.
Proof. intros Hsub (? & ?). split; [set_solver|done]. Qed.

Lemma program_well_formed_mono codes codes' pv :
  codes ⊆ codes' → program_well_formed codes pv →
  program_well_formed codes' pv.
Proof. intros Hsub (? & ?). split; [set_solver|done]. Qed.

Lemma well_formed_relevant s s' :
  relevant s' = relevant s → well_formed s → well_formed s'.
Proof.
  unfold relevant, well_formed. intros [= H1 H2 H3 H4 _ H6 H7 H8].
  by rewrite H1, H2, H3, H4, H6, H7, H8.
Qed.

Lemma program_branch_well_formed debug line s :
  classify line = Typed line_type.program → well_formed s →
  well_formed (final_state (program_line debug (first_token line) line s)).
Proof.
  intros Hline (Hrecs & Hpv & Hcert & Hh & Ha & Hi).
  destruct (program_line_runs debug (first_token line) line s)
    as (s' & Hrun & Hpv' & Hcert' & Hrecs' & _ & _ & Hh' & Ha' & Hi').
  destruct (program_line_codes debug (first_token line) line s)
    as (s'' & Hrun' & Hcodes & _).
  rewrite Hrun in Hrun'. injection Hrun' as <-. rewrite Hrun.
  cbn [final_state]. unfold well_formed.
  rewrite Hrecs', Hcodes, Hpv', Hcert', Hh', Ha', Hi'.
  split_and!; try done.
  - intros k r Hk. destruct (Hrecs k r Hk). split; [|done].
    eapply key_well_formed_mono; [|done]. set_solver.
  - intros pv [= <-]. unfold program_well_formed. cbn. split_and!.
    + set_solver.
    + by apply classify_program.
    + apply fix_title_is_trimmed.
    + apply strip_trimmed.
    + apply length_stripped_award_field.
    + apply institution_title_is_trimmed.
    + apply length_hegis_field.
    + intros m. set_solver.
  - intros c [= <-]. by left.
Qed.

Lemma multiple_awards_line_unbound debug line s :
  program_vars s = None →
  relevant (final_state (multiple_awards_line debug line s)) = relevant s.
Proof.
  intros Hpv. unfold multiple_awards_line. run_M.
  destruct (_ && _); cbn; rewrite Hpv; done.
Qed.

Lemma multiple_awards_branch_well_formed debug line s :
  well_formed s → well_formed (final_state (multiple_awards_line debug line s)).
Proof.
  intros Hs. destruct (program_vars s) as [pv|] eqn:Hpv.
  2: { eapply well_formed_relevant; [|done].
       by apply multiple_awards_line_unbound. }
  destruct (multiple_awards_line_runs debug line s pv Hpv)
    as (s' & Hrun & Hpv' & _ & Hrecs' & Hcert' & _ & _ & Hh' & Ha' & Hi' & Hcodes).
  rewrite Hrun. cbn [final_state].
  destruct Hs as (Hrecs & Hprog & Hcert & Hh & Ha & Hi).
  unfold well_formed. rewrite Hrecs', Hcodes, Hpv', Hcert', Hh', Ha', Hi'.
  split_and!; try done.
  intros pv' [= <-].
  destruct (Hprog pv Hpv) as (? & ? & ? & ? & ? & ? & ? & Hmaw).
  unfold program_well_formed. cbn. split_and!; try done.
  intros m [->%elem_of_singleton|Hm]%elem_of_union; [|by apply Hmaw].
  unfold entry_well_formed. cbn. split_and!.
  - apply strip_trimmed.
  - apply strip_trimmed.
  - apply length_stripped_award_field.
  - apply institution_title_is_trimmed.
  - apply length_stripped_hegis_field.
Qed.

Lemma multiple_institutions_line_final debug line s :
  records (final_state (multiple_institutions_line debug line s)) = records s ∧
  program_codes (final_state (multiple_institutions_line debug line s))
    = program_codes s ∧
  cert (final_state (multiple_institutions_line debug line s)) = cert s ∧
  (program_vars (final_state (multiple_institutions_line debug line s))
     = program_vars s ∨
   ∃ pv, program_vars s = Some pv ∧
         program_vars (final_state (multiple_institutions_line debug line s)) =
           Some {| program_code := program_code pv;
                   program_name := program_name pv;
                   program_hegis := program_hegis pv;
                   program_award := program_award pv;
                   program_institution := program_institution pv;
                   maw_lines := maw_lines pv; maw_awards := maw_awards pv;
                   minst_line := true |}) ∧
  minst_hegis (final_state (multiple_institutions_line debug line s)) =
    Some (if decide (Py.strip (Py.slice 52 59 line) = "") then None
          else Some (Py.strip (Py.slice 52 59 line))) ∧
  minst_award (final_state (multiple_institutions_line debug line s)) =
    Some (if decide (Py.strip (Py.slice 63 76 line) = "NOT-GRANTING") then None
          else Some (Py.strip (Py.slice 63 76 line))) ∧
  (minst_institution (final_state (multiple_institutions_line debug line s))
     = minst_institution s ∨
   minst_institution (final_state (multiple_institutions_line debug line s))
     = Some (institution_title (Py.slice_from 76 line))).
Proof.
  unfold multiple_institutions_line.
  generalize (Py.strip (Py.slice 52 59 line)) (Py.strip (Py.slice 63 76 line))
    (institution_title (Py.slice_from 76 line)).
  intros hg aw inst. cbv zeta.
  unfold mbind, M_bind, modify, gets, mret, M_ret, read. cbv beta iota.
  destruct (when _ _ _) as [[] s0|s0|e s0] eqn:Hw.
  2, 3: exfalso; unfold when, print, modify, mret, M_ret in Hw;
    by destruct (_ && _).
  assert (records s0 = records s ∧ program_codes s0 = program_codes s ∧
          cert s0 = cert s ∧ program_vars s0 = program_vars s ∧
          minst_institution s0 = minst_institution s)
    as (Hr & Hc & Hcert & Hpv & Hi).
  { unfold when, print, modify, mret, M_ret in Hw.
    by destruct (_ && _); simplify_eq. }
  destruct (truthy _); cbn [when].
  - cbn [program_vars set_minst_award set_minst_hegis].
    destruct (program_vars s0) as [pv|] eqn:Hpv0.
    + destruct (minst_line pv); cbn [when].
      * unfold print, modify, exit. cbn.
        split_and!; auto; left; congruence.
      * unfold mret, M_ret. cbv beta iota.
        destruct debug; cbn [when]; unfold print, modify; cbn;
          (split_and!; [done|done|done| |done|done|by right]);
          right; exists pv; by rewrite <- Hpv.
    + cbn. split_and!; auto; left; congruence.
  - cbn. split_and!; auto.
Qed.

Lemma multiple_institutions_branch_well_formed debug line s :
  well_formed s →
  well_formed (final_state (multiple_institutions_line debug line s)).
Proof.
  intros (Hrecs & Hprog & Hcert & Hh & Ha & Hi).
  destruct (multiple_institutions_line_final debug line s)
    as (Hr' & Hc' & Hcert' & Hpv' & Hh' & Ha' & Hi').
  unfold well_formed. rewrite Hr', Hc', Hcert', Hh', Ha'.
  split_and!; try done.
  - destruct Hpv' as [->|(pv & Hpv & ->)]; [done|].
    intros pv' [= <-]. specialize (Hprog pv Hpv).
    unfold program_well_formed in *. by cbn.
  - intros h Hh0.
    destruct (decide (Py.strip (Py.slice 52 59 line) = "")); simplify_eq.
    apply length_stripped_hegis_field.
  - intros a Ha0.
    destruct (decide (Py.strip (Py.slice 63 76 line) = "NOT-GRANTING"));
      simplify_eq.
    split; [apply strip_trimmed|apply length_stripped_award_field].
  - destruct Hi' as [->| ->]; [done|].
    intros i [= <-]. apply institution_title_is_trimmed.
Qed.

Lemma certificate_branch_well_formed line s :
  well_formed s → well_formed (final_state (certificate_etc_line line s)).
Proof.
  intros (Hrecs & Hprog & Hcert & Hh & Ha & Hi).
  unfold certificate_etc_line. cbv zeta.
  generalize (Py.strip (Py.slice_from 47 line)). intros info. run_M.
  destruct (bool_decide _); cbn; destruct (Py.startswith "NONE" info); cbn;
    (split_and!; try done); intros c [= <-];
    first [ by left
          | right; eexists _, _, _; split_and!; try done; apply strip_trimmed ].
Qed.

Lemma other_branches_well_formed line :
  preserves well_formed (for_award_line line) ∧
  preserves well_formed (financial_aid_line line) ∧
  preserves well_formed (unrecognized_line line).
Proof.
  split_and!; unfold_branches; preserves_walk ltac:(idtac; untouched).
Qed.

(** The keys an accreditation line makes are well formed. *)
Lemma generated_keys_well_formed s pv award k :
  well_formed s → program_vars s = Some pv →
  k ∈ MA_keys pv award ∪ MI_keys s pv award ∪ program_keys pv award →
  key_well_formed (program_codes s) k.
Proof.
  intros (_ & Hprog & _ & Hh & Ha & Hi) Hpv.
  destruct (Hprog pv Hpv) as (Hcode & Hdec & Hname & Haward & Hlen & Hinst
                              & Hhegis & Hmaw).
  rewrite !elem_of_union. intros [[Hk|Hk]|Hk].
  - unfold MA_keys, MA_entries in Hk.
    apply elem_of_map in Hk as (m & -> & [_ Hm]%elem_of_filter).
    destruct (Hmaw m Hm) as (? & ? & ? & ? & ?).
    unfold key_well_formed, MA_key. cbn. split_and!; try done.
    by intros h [= <-].
  - unfold MI_keys in Hk.
    destruct (minst_line pv); [|by apply not_elem_of_empty in Hk].
    destruct (minst_award s) as [[a|]|] eqn:Hma;
      try (by apply not_elem_of_empty in Hk).
    destruct (minst_hegis s) as [hegis|] eqn:Hmh;
      [|by apply not_elem_of_empty in Hk].
    destruct (minst_institution s) as [inst|] eqn:Hmi;
      [|by apply not_elem_of_empty in Hk].
    case_decide; [|by apply not_elem_of_empty in Hk].
    apply elem_of_singleton in Hk as ->.
    destruct (Ha a eq_refl). unfold key_well_formed. cbn.
    split_and!; try done; [by apply sub_spaces_trimmed|by apply Hi|].
    intros h ->. by apply Hh.
  - unfold program_keys in Hk.
    case_decide; [|by apply not_elem_of_empty in Hk].
    apply elem_of_singleton in Hk as ->. unfold key_well_formed. cbn.
    split_and!; try done; [by apply sub_spaces_trimmed|].
    by intros h [= <-].
Qed.

Lemma generate_keys_well_formed debug pv award data s :
  consistent s → well_formed s → program_vars s = Some pv →
  record_well_formed data →
  well_formed (final_state (generate_keys debug pv award data s)).
Proof.
  intros Hcons Hs Hpv Hdata.
  destruct (expansion_runs debug pv award data s Hpv Hcons)
    as (s' & -> & (Hkeep & Hdom & Hnew) & Hnames).
  cbn [final_state]. unfold names in Hnames.
  injection Hnames as Hcodes _ _ _ _ Hpv' Hcert' Hh' Ha' Hi' _ _.
  pose proof Hs as (Hrecs & Hrest).
  unfold well_formed. rewrite Hcodes, Hpv', Hcert', Hh', Ha', Hi'.
  split; [|exact Hrest].
  intros k r Hk. destruct (records s !! k) as [r0|] eqn:Hk0.
  - rewrite (Hkeep k r0 Hk0) in Hk. injection Hk as <-. by apply Hrecs.
  - assert (k ∈ dom (records s')) as Hin by (by apply elem_of_dom_2 in Hk).
    rewrite (Hnew k Hk0 Hin) in Hk. injection Hk as <-. split; [|done].
    apply (generated_keys_well_formed s pv award); [done..|].
    rewrite Hdom in Hin. apply not_elem_of_dom in Hk0. set_solver.
Qed.

Lemma accreditation_branch_well_formed debug line s :
  consistent s → well_formed s →
  well_formed (final_state (accreditation_line debug line s)).
Proof.
  intros Hcons Hs. unfold accreditation_line. run_M.
  destruct (bool_decide _); cbn;
    (destruct (cert s) as [c|] eqn:Hc; cbn; [|done]);
    (destruct (fin_aid s) as [fa|] eqn:Hfa; cbn; [|done]);
    (destruct (for_award s) as [award|] eqn:Haward; cbn; [|done]);
    (destruct (program_vars s) as [pv|] eqn:Hpv; cbn; [|done]);
    (apply generate_keys_well_formed; [done|done|done|]);
    (split; [|apply strip_trimmed]);
    destruct Hs as (_ & _ & Hcert & _); by apply Hcert.
Qed.

Lemma branch_well_formed debug t line s :
  classify line = Typed t → consistent s → well_formed s →
  well_formed (final_state (branch_of debug t line s)).
Proof.
  intros Hline Hcons Hs.
  destruct (other_branches_well_formed line) as (Hfor & Hfin & _).
  destruct t; cbn [branch_of].
  - by apply program_branch_well_formed.
  - by apply multiple_awards_branch_well_formed.
  - by apply multiple_institutions_branch_well_formed.
  - by apply Hfor.
  - by apply certificate_branch_well_formed.
  - by apply Hfin.
  - by apply accreditation_branch_well_formed.
Qed.

Lemma step_well_formed debug line s :
  consistent s → well_formed s → well_formed (final_state (step debug line s)).
Proof.
  intros Hcons Hs. rewrite step_classify.
  destruct (classify line) as [t| |] eqn:Hline.
  - by apply branch_well_formed.
  - by apply (other_branches_well_formed line).
  - done.
Qed.

Lemma loop_well_formed debug lines s :
  consistent s → well_formed s → well_formed (final_state (loop debug lines s)).
Proof.
  revert s. induction lines as [|line lines IH]; intros s Hcons Hs; [done|].
  cbn [loop]. unfold mbind, M_bind.
  pose proof (step_consistent debug line s Hcons) as Hcons'.
  pose proof (step_well_formed debug line s Hcons Hs) as Hs'.
  destruct (step debug line s) as [[] s1| |]; [by apply IH|done..].
Qed.

Lemma initial_state_well_formed : well_formed initial_state.
Proof. split_and!; done. Qed.

(** X12.  What ends up in [records].  In the state a run ends in, however it
    ends, every key of [records] has a program code that is a decimal number
    and is in [program_codes]; its name, award and institution are
    stripped; its award has at most thirteen characters and its
    classification code, when it has one, at most seven.  The three
    certificate fields of its record are all [None] or all strings, each
    stripped, and its accreditation text is stripped. *)
Theorem keys_and_records_are_well_formed debug lines k r :
  records (final_state (run debug lines)) !! k = Some r →
  key_well_formed (program_codes (final_state (run debug lines))) k ∧
  record_well_formed r.
Proof.
  intros Hk.
  assert (well_formed (final_state (run debug lines))) as (Hrecs & _).
  { unfold run. apply (loop_well_formed debug lines initial_state);
      [by intros pv|apply initial_state_well_formed]. }
  by apply Hrecs.
Qed.

(** ** The debug flag *)

Section simulates.

Context {A B : Type}.







End simulates.
















(** ** The theorems at the example inputs *)

Lemma exits_Exit (o : outcome unit) : exits o = true → o = Exit (final_state o).
Proof. by destruct o. Qed.

(** A program line read after a block that has stored a record. *)
Lemma records_change_at_accreditation_lines_only_witness :
  let s := final_state (run false first_block) in
  records (final_state (step false music s)) = records s.
Proof.
  intros s.
  assert (classify music ≠ Typed line_type.accreditation) as Hline
    by (vm_compute; discriminate).
  exact (records_change_at_accreditation_lines_only false music s Hline).
Defined.


(** An M/A line right after a financial_aid line. *)
Lemma unexpected_iff_out_of_sequence_witness :
  let s := final_state (run false (take 4 late_MA_input)) in
  let line := Report.multiple_awards "ART HISTORY" "1003.00" "MA"
                "QUEENS COLLEGE" in
  this_type (final_state (step false line s)) = line_type.multiple_awards ∧
  prev_type (final_state (step false line s)) = Some (this_type s) ∧
  filter is_unexpected (printed (step false line s)) =
    filter is_unexpected (output s) ++
      (if expected (Some (this_type s)) line_type.multiple_awards then []
       else [(unexpected_channel line_type.multiple_awards,
              Unexpected (line_num s + 1) line_type.multiple_awards)]).
Proof.
  intros s line.
  assert (classify line = Typed line_type.multiple_awards) as Hline
    by (vm_compute; reflexivity).
  exact (unexpected_iff_out_of_sequence false line line_type.multiple_awards s
           Hline).
Defined.

(** The lines of a page header, read after a block. *)
Lemma unrecognized_lines_are_reported_and_skipped_witness :
  let s := final_state (run false first_block) in
  ∃ s',
    loop false header_lines s = Ok () s' ∧
    output s' =
      output s ++
      imap (λ i line, (Stderr, Unrecognized (line_num s + i + 1) line))
        header_lines ∧
    line_num s' = line_num s + length header_lines ∧
    parser_names s' = parser_names s.
Proof.
  intros s.
  assert (Forall (λ line, classify line = Untyped) header_lines) as Hlines.
  { repeat (apply Forall_cons_2; [vm_compute; reflexivity|]).
    apply Forall_nil_2. }
  exact (unrecognized_lines_are_reported_and_skipped false header_lines s
           Hlines).
Defined.

(** The run that stops at the second M/I line with an award. *)
Lemma exit_only_at_a_second_MI_line_witness :
  let s := final_state (run false second_MI_input) in
  ∃ line code,
    second_MI_input !! (line_num s - 1) = Some line ∧
    classify line = Typed line_type.multiple_institutions ∧
    last (output s) = Some (Stdout, SecondMI (line_num s) code) ∧
    this_type s = line_type.multiple_institutions.
Proof.
  intros s.
  assert (run false second_MI_input = Exit s) as Hrun.
  { refine (exits_Exit (run false second_MI_input) _). vm_compute.
    reflexivity. }
  exact (exit_only_at_a_second_MI_line false second_MI_input s Hrun).
Defined.


(** An M/A line whose entry the program has already. *)
Lemma MA_line_is_recorded_witness :
  let s := final_state (run false three_MA_input) in
  let line := art_therapy_line in
  let pv := three_MA_vars in
  ∃ s' pv' m,
    step false line s = Ok () s' ∧ program_vars s' = Some pv' ∧
    m = mkMAW_line (fix_title (Py.slice 10 52 line))
          (Py.strip (Py.slice 52 59 line)) (Py.strip (Py.slice 63 76 line))
          (institution_title (Py.slice_from 76 line)) ∧
    trimmed (maw_name m) ∧ trimmed (maw_hegis m) ∧ trimmed (maw_award m) ∧
    trimmed (maw_institution m) ∧
    maw_lines pv' = {[m]} ∪ maw_lines pv ∧
    maw_awards pv' = {[maw_award m]} ∪ maw_awards pv ∧
    (m ∈ maw_lines pv →
     maw_lines pv' = maw_lines pv ∧
     (Stderr, DuplicateMA (line_num s + 1) m (program_code pv)) ∈ output s') ∧
    program_code pv' = program_code pv ∧ program_name pv' = program_name pv ∧
    program_hegis pv' = program_hegis pv ∧
    program_award pv' = program_award pv ∧
    program_institution pv' = program_institution pv ∧
    minst_line pv' = minst_line pv ∧
    records s' = records s.
Proof.
  intros s line pv.
  assert (classify line = Typed line_type.multiple_awards) as Hline
    by (vm_compute; reflexivity).
  assert (program_vars s = Some pv) as Hpv.
  { refine (bool_decide_eq_true_1 _ _). vm_compute. reflexivity. }
  exact (MA_line_is_recorded false line s pv Hline Hpv).
Defined.

(** A certificate line with blanks only after the label. *)
Lemma certificate_line_fields_witness :
  let s := final_state (run false [art_history; Report.for_award "BA"]) in
  let line := blank_certificate_line in
  ∃ s' c,
    step false line s = Ok () s' ∧ cert s' = Some c ∧
    (Py.startswith "NONE" (Py.strip (Py.slice_from 47 line)) = true →
     c = Certs_etc_default) ∧
    (Py.startswith "NONE" (Py.strip (Py.slice_from 47 line)) = false →
     ∃ n t d, c = mkCerts_etc (Some n) (Some t) (Some d) ∧
              trimmed n ∧ trimmed t ∧ trimmed d) ∧
    (blank (Py.slice_from 47 line) = true →
     c = mkCerts_etc (Some "") (Some "") (Some "")) ∧
    records s' = records s ∧ program_vars s' = program_vars s ∧
    fin_aid s' = fin_aid s ∧ for_award s' = for_award s.
Proof.
  intros s line.
  assert (classify line = Typed line_type.certificate_etc) as Hline
    by (vm_compute; reflexivity).
  exact (certificate_line_fields false line s Hline).
Defined.


(** The key and the record of the first block. *)
Lemma keys_and_records_are_well_formed_witness :
  let r := mkRecord None None None true false false "" in
  key_well_formed (program_codes (final_state (run false first_block)))
    art_history_key ∧
  record_well_formed r.
Proof.
  intros r.
  assert (records (final_state (run false first_block)) !! art_history_key =
          Some r) as Hk
    by (vm_compute; reflexivity).
  exact (keys_and_records_are_well_formed false first_block art_history_key r
           Hk).
Defined.

(** ** The two title functions *)

(** X14.  What [fix_title] and the institution expression return has no
    whitespace around it, whatever the string they are given: title-casing
    and the replacements leave the first and the last character of a
    stripped string non-blank, so that a [strip()] of the result, as the M/A
    branch applies it, changes nothing.  Whitespace around the argument makes
    no difference, and a blank argument gives the empty string. *)
Theorem title_functions_return_stripped_strings s :
  Py.strip (fix_title s) = fix_title s ∧
  Py.strip (institution_title s) = institution_title s ∧
  fix_title (Py.strip s) = fix_title s ∧
  institution_title (Py.strip s) = institution_title s ∧
  (blank s = true → fix_title s = "" ∧ institution_title s = "").
Proof.
  split_and!.
  - apply fix_title_is_trimmed.
  - apply institution_title_is_trimmed.
  - unfold fix_title. by rewrite (strip_trimmed s).
  - unfold institution_title. by rewrite (strip_trimmed s).
  - intros Hs. unfold fix_title, institution_title. rewrite (blank_strip s Hs).
    split; vm_compute; reflexivity.
Qed.
